(** * Clash-report exporters: a shallow embedding of the extraction logic

    The development follows [export_xml_to_excel_v6.py] (the record builder,
    the tag resolver, the group lookup, the image locator),
    [export_xml_to_excel.py] and [export_xml_to_word_v4.py] (the sibling
    versions of the same functions) and [discover_xml_fields.py] (the field
    scanner).

    Strings are Python [str] values restricted to code points below 256; a
    parsed XML document is the tree [xml.etree.ElementTree] hands back. *)

From Stdlib Require Import ZArith Ascii String List Bool Lia DecimalString.
From stdpp Require Import base option list strings gmap sorting.

Local Open Scope string_scope.

(** ** Python string primitives *)

Module Py.

Definition nl : string := String (ascii_of_nat 10) "".
Definition backslash : ascii := ascii_of_nat 92.
Definition slash : ascii := ascii_of_nat 47.

(** [c.isspace()] for a code point below 256: TAB..CR, FS..US, SPACE,
    NEL and NBSP. *)
Definition isspace (c : ascii) : bool :=
  let n := nat_of_ascii c in
  ((9 <=? n)%nat && (n <=? 13)%nat) || ((28 <=? n)%nat && (n <=? 32)%nat)
  || (n =? 133)%nat || (n =? 160)%nat.

Fixpoint lstrip_by (sp : ascii -> bool) (s : string) : string :=
  match s with
  | String c r => if sp c then lstrip_by sp r else s
  | EmptyString => EmptyString
  end.

Definition strip_by (sp : ascii -> bool) (s : string) : string :=
  String.rev (lstrip_by sp (String.rev (lstrip_by sp s))).

(** [s.strip()] *)
Definition strip (s : string) : string := strip_by isspace s.

(** Truth value of a [str]: only the empty string is false. *)
Definition truthy (s : string) : bool :=
  match s with EmptyString => false | String _ _ => true end.

(** Truth value of [None | str]. *)
Definition otruthy (o : option string) : bool :=
  match o with Some s => truthy s | None => false end.

(** [o or ""] for [o] a string or [None]. *)
Definition or_empty (o : option string) : string :=
  if otruthy o then default EmptyString o else EmptyString.

(** [s.replace("\\", "/")] *)
Fixpoint replace_backslash (s : string) : string :=
  match s with
  | EmptyString => EmptyString
  | String c r =>
      String (if Ascii.eqb c backslash then slash else c) (replace_backslash r)
  end.

(** [s.replace(old, new)] for a non-empty [old]; [skip] counts the
    characters of a match still to be dropped. *)
Fixpoint replace_go (old new : string) (skip : nat) (s : string) : string :=
  match s with
  | EmptyString => EmptyString
  | String c r =>
      match skip with
      | S k => replace_go old new k r
      | O =>
          if String.prefix old s
          then new ++ replace_go old new (String.length old - 1) r
          else String c (replace_go old new 0 r)
      end
  end.

Definition replace (old new s : string) : string := replace_go old new 0 s.

(** Line boundaries of [str.splitlines] below code point 256:
    LF, VT, FF, CR (and CR LF as one), FS, GS, RS, NEL. *)
Definition islinebreak (c : ascii) : bool :=
  let n := nat_of_ascii c in
  ((10 <=? n)%nat && (n <=? 13)%nat) || ((28 <=? n)%nat && (n <=? 30)%nat)
  || (n =? 133)%nat.

(** [cur] is the line being read, reversed; [after_cr] says that the
    previous character was a CR, so that a following LF is swallowed. *)
Fixpoint splitlines_go (cur : string) (started after_cr : bool) (s : string)
  : list string :=
  match s with
  | EmptyString => if started then [String.rev cur] else []
  | String c r =>
      if after_cr && Ascii.eqb c (ascii_of_nat 10)
      then splitlines_go cur started false r
      else if islinebreak c
      then String.rev cur
             :: splitlines_go EmptyString false (Ascii.eqb c (ascii_of_nat 13)) r
      else splitlines_go (String c cur) true false r
  end.

Definition splitlines (s : string) : list string :=
  splitlines_go EmptyString false false s.

(** [sep.join(parts)] *)
Definition join (sep : string) (parts : list string) : string :=
  String.concat sep parts.

(** [str(n)] for a non-negative integer. *)
Definition str_of_N (n : N) : string := NilZero.string_of_uint (N.to_uint n).

End Py.

(** ** The element tree of [xml.etree.ElementTree] *)

Module ET.

(** An [Element]: tag, attribute dictionary (in document order, names
    unique), text before the first child, children. *)
#[warning="-register-all"]
Inductive Element : Type :=
| Elem (tag : string) (attrib : list (string * string))
       (text : option string) (children : list Element).

Definition tag (e : Element) : string :=
  match e with Elem t _ _ _ => t end.
Definition attrib (e : Element) : list (string * string) :=
  match e with Elem _ a _ _ => a end.
Definition text (e : Element) : option string :=
  match e with Elem _ _ x _ => x end.
Definition children (e : Element) : list Element :=
  match e with Elem _ _ _ cs => cs end.

Fixpoint assoc (k : string) (a : list (string * string)) : option string :=
  match a with
  | [] => None
  | (k', v) :: r => if String.eqb k' k then Some v else assoc k r
  end.

(** [e.get(k)] *)
Definition get (e : Element) (k : string) : option string := assoc k (attrib e).

(** [e.get(k, d)] *)
Definition get_or (e : Element) (k d : string) : string := default d (get e k).

(** [e.iter()]: the element, then its subtrees, in document order. *)
Fixpoint iter (e : Element) : list Element :=
  match e with Elem _ _ _ cs => e :: flat_map iter cs end.

(** The proper descendants of [e], in document order. *)
Definition descendants (e : Element) : list Element :=
  flat_map iter (children e).

Definition has_tag (t : string) (e : Element) : bool := String.eqb (tag e) t.

(** [e.findall(".//t")] *)
Definition findall_desc (t : string) (e : Element) : list Element :=
  List.filter (has_tag t) (descendants e).

(** [e.find(".//t")] *)
Definition find_desc (t : string) (e : Element) : option Element :=
  head (findall_desc t e).

(** [e.findall("t")]: direct children only. *)
Definition findall_child (t : string) (e : Element) : list Element :=
  List.filter (has_tag t) (children e).

(** [e.findtext(t, d)]: the text of the first child tagged [t] (the empty
    string when that child has no text), [d] when there is no such child. *)
Definition findtext (t : string) (d : string) (e : Element) : string :=
  match head (findall_child t e) with
  | Some c => default EmptyString (text c)
  | None => d
  end.


(** *** Nodes with their position

    ElementTree compares elements by identity.  A node is identified by the
    child indices leading to it from the root. *)
Definition loc : Type := list nat.

Record Node : Type := MkNode { node_loc : loc; node_elt : Element }.

Fixpoint iter_at (p : loc) (e : Element) : list Node :=
  match e with
  | Elem _ _ _ cs =>
      MkNode p e
        :: (fix go (i : nat) (l : list Element) : list Node :=
              match l with
              | [] => []
              | c :: r => (iter_at (p ++ [i]) c ++ go (S i) r)%list
              end) 0%nat cs
  end.

Definition descendants_at (n : Node) : list Node :=
  List.tail (iter_at (node_loc n) (node_elt n)).

(** [n.findall(".//t")], keeping positions. *)
Definition findall_desc_at (t : string) (n : Node) : list Node :=
  List.filter (fun m => has_tag t (node_elt m)) (descendants_at n).

Definition loc_eqb (p q : loc) : bool := bool_decide (p = q).

(** [n in l] on a list of elements: identity. *)
Definition node_in (n : Node) (l : list Node) : bool :=
  existsb (fun m => loc_eqb (node_loc m) (node_loc n)) l.

End ET.

(** ** Tag resolution and item summaries *)

Module Items.
Import Py ET.

(** One turn of the loop of [get_item_details] in
    [export_xml_to_excel_v6.py] (the same in [export_xml_to_word_v4.py]):
    [if name: tags[name] = val]. *)
Definition add_tag (tags : gmap string string) (st : Element)
  : gmap string string :=
  let name := strip (findtext "name" "" st) in
  let val := strip (findtext "value" "" st) in
  if truthy name then <[name := val]> tags else tags.

(** The dictionary [tags] after the loop over
    [clash_object.findall(".//smarttag")]. *)
Definition resolve_tags (clash_object : Element) : gmap string string :=
  foldl add_tag ∅ (findall_desc "smarttag" clash_object).

(** [tags.get(k)] used as a condition. *)
Definition tag_truthy (tags : gmap string string) (k : string) : bool :=
  otruthy (tags !! k).

(** [tags.get(k, "")] *)
Definition tag_or_empty (tags : gmap string string) (k : string) : string :=
  default "" (tags !! k).

(** The summary lines built from a tag dictionary. *)
Definition summary_lines (tags : gmap string string) : list string :=
  let l1 :=
    if tag_truthy tags "Item Name"
    then ["Item Name: " ++ tag_or_empty tags "Item Name"] else [] in
  let l2 :=
    if tag_truthy tags "Civil3D General:Network name"
    then ["Network: " ++ tag_or_empty tags "Civil3D General:Network name"]
    else [] in
  let part := tag_or_empty tags "Civil3D General:Part Size Name" in
  let itype := tag_or_empty tags "Item Type" in
  let type_line := strip (join " " (List.filter truthy [part; itype])) in
  let l3 := if truthy type_line then ["Item Type: " ++ type_line] else [] in
  let inner := tag_or_empty tags "Civil3D General:Inner Diameter or Width" in
  let outer := tag_or_empty tags "Civil3D General:Outer Diameter or Width" in
  let l4 :=
    if truthy inner || truthy outer
    then [strip ("Pipe " ++ inner ++ " x " ++ outer)] else [] in
  (l1 ++ l2 ++ l3 ++ l4)%list.

(** [get_item_details(clash_object)] of [export_xml_to_excel_v6.py]. *)
Definition get_item_details (clash_object : option Element) : string :=
  match clash_object with
  | None => ""
  | Some o => join nl (summary_lines (resolve_tags o))
  end.

(** [get_item_name_short(item_details_text)] *)
Definition get_item_name_short (item_details_text : string) : string :=
  match List.find (String.prefix "Item Name:") (splitlines item_details_text) with
  | Some line => strip (replace "Item Name:" "" line)
  | None =>
      let first :=
        if truthy item_details_text
        then default "" (head (splitlines item_details_text)) else "" in
      if truthy first then first else "Unknown"
  end.

(** *** The resolver of [export_xml_to_excel.py]

    [if not name or not value: continue], then one assignment per
    recognised name. *)
Definition data_key (name : string) : option string :=
  if String.eqb name "Item Name" then Some "itemName"
  else if String.eqb name "Civil3D General:Network name" then Some "network"
  else if String.eqb name "Civil3D General:Part Size Name" then Some "partSize"
  else if String.eqb name "Item Type" then Some "itemType"
  else if String.eqb name "Civil3D General:Inner Diameter or Width"
  then Some "inner"
  else if String.eqb name "Civil3D General:Outer Diameter or Width"
  then Some "outer"
  else None.

Definition add_tag_v0 (data : gmap string string) (t : Element)
  : gmap string string :=
  let name := strip (findtext "name" "" t) in
  let value := strip (findtext "value" "" t) in
  if negb (truthy name) || negb (truthy value) then data
  else match data_key name with
       | Some k => <[k := value]> data
       | None => data
       end.

Definition resolve_tags_v0 (clashObject : Element) : gmap string string :=
  foldl add_tag_v0 ∅ (findall_child "smarttag" clashObject).

End Items.

(** ** Python floats: [float(...)] and the [.3f] format

    A finite float is [(-1)^neg * m * 2^e]; [float(str)] rounds the decimal
    value to the nearest binary64 number, ties to even, and [.3f] rounds
    the exact binary value to three decimals, ties to even. *)

Module PyFloat.
Import Py.
Local Open Scope Z_scope.

Inductive t : Type :=
| Finite (neg : bool) (m : N) (e : Z)
| Inf (neg : bool)
| NaN.

(** The literal [0.0]. *)
Definition zero : t := Finite false 0%N 0.

(** [n / d] rounded to an integer, ties to even ([0 <= n], [0 < d]). *)
Definition round_half_even (n d : Z) : Z :=
  let q := n / d in
  let r := n mod d in
  match (2 * r ?= d) with
  | Lt => q
  | Gt => q + 1
  | Eq => if Z.even q then q else q + 1
  end.

(** [n / d < 2^l] *)
Definition ratio_below_pow2 (n d l : Z) : bool :=
  if 0 <=? l then n <? d * 2 ^ l else n * 2 ^ (- l) <? d.

(** The binary64 number nearest to [n / d] ([0 <= n], [0 < d]). *)
Definition of_ratio (neg : bool) (n d : Z) : t :=
  if n =? 0 then Finite neg 0%N 0
  else
    let l := Z.log2 n - Z.log2 d in
    let k := if ratio_below_pow2 n d l then l - 1 else l in
    let e := Z.max (k - 52) (-1074) in
    let q :=
      if 0 <=? e then round_half_even n (d * 2 ^ e)
      else round_half_even (n * 2 ^ (- e)) d in
    if (0 <=? e) && (2 ^ 1024 <=? q * 2 ^ e) then Inf neg
    else Finite neg (Z.to_N q) e.

Definition digit_of (c : ascii) : option Z :=
  let n := nat_of_ascii c in
  if ((48 <=? n)%nat && (n <=? 57)%nat)%bool then Some (Z.of_nat n - 48) else None.

Definition is_digit (c : ascii) : bool :=
  match digit_of c with Some _ => true | None => false end.

Definition lower (c : ascii) : ascii :=
  let n := nat_of_ascii c in
  if ((65 <=? n)%nat && (n <=? 90)%nat)%bool then ascii_of_nat (n + 32) else c.

Fixpoint lower_string (s : string) : string :=
  match s with
  | EmptyString => EmptyString
  | String c r => String (lower c) (lower_string r)
  end.

(** Underscores are accepted only between two digits, and then ignored;
    [prev] says that the previous character was a digit. *)
Fixpoint strip_underscores (prev : bool) (s : string) : option string :=
  match s with
  | EmptyString => Some EmptyString
  | String c r =>
      if Ascii.eqb c "_"%char then
        match r with
        | String c' _ =>
            if (prev && is_digit c')%bool then strip_underscores false r else None
        | EmptyString => None
        end
      else String c <$> strip_underscores (is_digit c) r
  end.

(** Reads a run of digits: the value accumulated onto [acc], the number
    of digits read, and what follows. *)
Fixpoint take_digits (acc : Z) (cnt : nat) (s : string) : Z * nat * string :=
  match s with
  | EmptyString => (acc, cnt, s)
  | String c r =>
      match digit_of c with
      | Some d => take_digits (10 * acc + d) (S cnt) r
      | None => (acc, cnt, s)
      end
  end.

(** The exponent part, which must reach the end of the string. *)
Definition parse_exponent (s : string) : option Z :=
  match s with
  | EmptyString => Some 0
  | String c r =>
      if Ascii.eqb (lower c) "e"%char then
        let '(sg, r') :=
          match r with
          | String c' r'' =>
              if Ascii.eqb c' "-"%char then (-1, r'')
              else if Ascii.eqb c' "+"%char then (1, r'')
              else (1, r)
          | EmptyString => (1, r)
          end in
        match take_digits 0 0 r' with
        | (v, S _, EmptyString) => Some (sg * v)
        | _ => None
        end
      else None
  end.

(** An unsigned decimal number: mantissa digits and power of ten. *)
Definition parse_decimal (s : string) : option (Z * Z) :=
  let '(ip, ni, r1) := take_digits 0 0 s in
  let '(mant, nf, r2) :=
    match r1 with
    | String c r =>
        if Ascii.eqb c "."%char then take_digits ip 0 r else (ip, 0%nat, r1)
    | EmptyString => (ip, 0%nat, r1)
    end in
  match (ni + nf)%nat with
  | O => None
  | S _ =>
      match parse_exponent r2 with
      | Some ex => Some (mant, ex - Z.of_nat nf)
      | None => None
      end
  end.

Definition of_decimal (neg : bool) (mant ex : Z) : t :=
  if 0 <=? ex then of_ratio neg (mant * 10 ^ ex) 1
  else of_ratio neg mant (10 ^ (- ex)).

(** The blanks [float] skips at both ends: TAB..CR, SPACE, NEL, NBSP
    (FS..US are not skipped, unlike [str.strip]). *)
Definition float_space (c : ascii) : bool :=
  let n := nat_of_ascii c in
  (((9 <=? n)%nat && (n <=? 13)%nat) || (n =? 32)%nat
   || (n =? 133)%nat || (n =? 160)%nat)%bool.

(** [float(s)] for a string: [None] stands for [ValueError]. *)
Definition of_string (s : string) : option t :=
  let s1 := strip_by float_space s in
  let '(neg, s2) :=
    match s1 with
    | String c r =>
        if Ascii.eqb c "-"%char then (true, r)
        else if Ascii.eqb c "+"%char then (false, r)
        else (false, s1)
    | EmptyString => (false, s1)
    end in
  let w := lower_string s2 in
  if (String.eqb w "inf" || String.eqb w "infinity")%bool then Some (Inf neg)
  else if String.eqb w "nan" then Some NaN
  else
    match strip_underscores false s2 with
    | Some s3 =>
        match parse_decimal s3 with
        | Some (mant, ex) => Some (of_decimal neg mant ex)
        | None => None
        end
    | None => None
    end.

(** The argument of [float(pos.get(k) or 0.0)]: a string, or the float
    [0.0] when the attribute is missing or empty. *)
Definition get_or_zero (o : option string) : string + t :=
  match o with
  | Some s => if truthy s then inl s else inr zero
  | None => inr zero
  end.

(** [float(a)] for [a] a string or a float. *)
Definition float (a : string + t) : option t :=
  match a with
  | inl s => of_string s
  | inr x => Some x
  end.

(** [round(x, 3)]: the binary64 number nearest to the decimal with three
    places nearest to [x]. *)
Definition round3 (x : t) : t :=
  match x with
  | Finite neg m e =>
      let n := Z.of_N m * 1000 in
      let r := if 0 <=? e then n * 2 ^ e else round_half_even n (2 ^ (- e)) in
      of_ratio neg r 1000
  | _ => x
  end.

(** The sign and the exact value [n / d] of a finite float. *)
Definition numerator (m : N) (e : Z) : Z := Z.of_N m * 2 ^ Z.max e 0.
Definition denominator (e : Z) : Z := 2 ^ Z.max (- e) 0.

(** [float(n)] for an integer; an infinity stands for [OverflowError]. *)
Definition of_Z (n : Z) : t := of_ratio (n <? 0) (Z.abs n) 1.

(** [a / b] for two integers: the correctly rounded quotient,
    [ZeroDivisionError] for a zero divisor, [OverflowError] for a quotient
    beyond the floats. *)
Inductive div_result : Type :=
| DivOk (q : t)
| DivZero
| DivOverflow.

Definition div_Z (a b : Z) : div_result :=
  if b =? 0 then DivZero
  else match of_ratio (xorb (a <? 0) (b <? 0)) (Z.abs a) (Z.abs b) with
       | Inf _ => DivOverflow
       | q => DivOk q
       end.

(** [x * y] *)
Definition mul (x y : t) : t :=
  match x, y with
  | NaN, _ | _, NaN => NaN
  | Inf s1, Inf s2 => Inf (xorb s1 s2)
  | Inf s1, Finite s2 m _ | Finite s2 m _, Inf s1 =>
      if (m =? 0)%N then NaN else Inf (xorb s1 s2)
  | Finite s1 m1 e1, Finite s2 m2 e2 =>
      of_ratio (xorb s1 s2)
               (numerator m1 e1 * numerator m2 e2)
               (denominator e1 * denominator e2)
  end.

(** [x / y] for two floats: [None] stands for [ZeroDivisionError]. *)
Definition div (x y : t) : option t :=
  match x, y with
  | _, Finite _ 0%N _ => None
  | NaN, _ | _, NaN => Some NaN
  | Inf _, Inf _ => Some NaN
  | Inf s1, Finite s2 _ _ => Some (Inf (xorb s1 s2))
  | Finite s1 _ _, Inf s2 => Some (Finite (xorb s1 s2) 0%N 0)
  | Finite s1 m1 e1, Finite s2 m2 e2 =>
      Some (of_ratio (xorb s1 s2)
                     (numerator m1 e1 * denominator e2)
                     (denominator e1 * numerator m2 e2))
  end.

(** [x < y] *)
Definition ltb (x y : t) : bool :=
  match x, y with
  | NaN, _ | _, NaN => false
  | Inf s1, Inf s2 => s1 && negb s2
  | Inf s1, Finite _ _ _ => s1
  | Finite _ _ _, Inf s2 => negb s2
  | Finite s1 m1 e1, Finite s2 m2 e2 =>
      (if s1 then - numerator m1 e1 else numerator m1 e1) * denominator e2
      <? (if s2 then - numerator m2 e2 else numerator m2 e2) * denominator e1
  end.

(** [min(a, b, c)]: the first of the smallest. *)
Definition min3 (a b c : t) : t :=
  let m := if ltb b a then b else a in
  if ltb c m then c else m.

(** [int(x)]: truncation towards zero; [ValueError] for a NaN,
    [OverflowError] for an infinity. *)
Inductive int_result : Type :=
| IntOk (n : Z)
| IntNaN
| IntInf.

Definition to_int (x : t) : int_result :=
  match x with
  | NaN => IntNaN
  | Inf _ => IntInf
  | Finite neg m e =>
      let q := numerator m e / denominator e in
      IntOk (if neg then - q else q)
  end.

Definition pad3 (n : Z) : string :=
  let s := str_of_N (Z.to_N n) in
  ((if (n <? 10)%Z then "00" else if (n <? 100)%Z then "0" else "") ++ s)%string.

(** [f"{x:.3f}"] *)
Definition format_3f (x : t) : string :=
  match x with
  | NaN => "nan"
  | Inf neg => if neg then "-inf" else "inf"
  | Finite neg m e =>
      let n := Z.of_N m * 1000 in
      let r := if 0 <=? e then n * 2 ^ e else round_half_even n (2 ^ (- e)) in
      ((if neg then "-" else "")
         ++ str_of_N (Z.to_N (r / 1000)) ++ "." ++ pad3 (r mod 1000))%string
  end.

End PyFloat.

(** ** Group lookup *)

Module Group.
Import Py ET.

Definition unknown_group : string := "Unknown Group".

(** The inner loop of the report sheet, over
    [test.findall(".//clashresult")]: on a result with the target's guid,
    [clash_group = test.get("name", "Unknown Group")] and [break]. *)
Fixpoint scan_results (clash_guid : option string) (test : Element)
         (crs : list Element) (clash_group : string) : string :=
  match crs with
  | [] => clash_group
  | cr :: rest =>
      if otruthy clash_guid && bool_decide (get cr "guid" = clash_guid)
      then get_or test "name" unknown_group
      else scan_results clash_guid test rest clash_group
  end.

(** The outer loop, over [root.findall(".//clashtest")]; it stops with
    [if clash_group != "Unknown Group": break]. *)
Fixpoint scan_tests (clash_guid : option string) (tests : list Element)
         (clash_group : string) : string :=
  match tests with
  | [] => clash_group
  | test :: rest =>
      let g :=
        scan_results clash_guid test (findall_desc "clashresult" test)
                     clash_group in
      if negb (String.eqb g unknown_group) then g
      else scan_tests clash_guid rest g
  end.

(** The group of a clash on the report sheet
    ([export_xml_to_excel_v6.py], lines 160-168;
    [export_xml_to_word_v4.py], lines 164-172). *)
Definition group_by_guid (root clash : Element) : string :=
  scan_tests (get clash "guid") (findall_desc "clashtest" root) unknown_group.

(** The loop of the Clash_Points sheet ([export_xml_to_excel_v6.py],
    lines 277-281): the first test whose results contain the clash itself,
    [break] at once. *)
Fixpoint scan_tests_containing (clash : Node) (tests : list Node) : string :=
  match tests with
  | [] => unknown_group
  | test :: rest =>
      if node_in clash (findall_desc_at "clashresult" test)
      then get_or (node_elt test) "name" unknown_group
      else scan_tests_containing clash rest
  end.

Definition group_by_containment (root : Element) (clash : Node) : string :=
  scan_tests_containing clash (findall_desc_at "clashtest" (MkNode [] root)).

(** For stating properties: a test holds a result with guid [g]. *)
Definition contains_guid (g : string) (test : Element) : bool :=
  existsb (fun cr => bool_decide (get cr "guid" = Some g))
          (findall_desc "clashresult" test).

End Group.

(** ** The world outside: [pathlib], the file system, the XML parser, the
    imaging and document libraries

    Each call of the run that leaves the program is a field of [Env]; a
    call that can raise has its exception in the result. *)

Inductive exn : Type :=
| ParseError   (* xml.etree.ElementTree.ParseError *)
| ValueError   (* float() on a string that is not a number *)
| OSError      (* the file system refuses: a file cannot be read, written
                  or tested *)
| ZeroDivisionError
| OverflowError
| LibraryError (msg : string).
               (* any other exception of the imaging or document library *)

Class Env : Type := {
  Path : Type;
  mkPath : string -> Path;            (* [Path(s)] *)
  is_absolute : Path -> bool;         (* [p.is_absolute()] *)
  parent : Path -> Path;              (* [p.parent] *)
  joinpath : Path -> string -> Path;  (* [p / s] *)
  name : Path -> string;              (* [p.name] *)
  resolve : Path -> option Path;      (* [p.resolve()], [None] when it raises *)
  path_exists : Path -> exn + bool;
    (* [p.exists()]: [False] when there is no such file; [exists] raises
       again an [OSError] that does not mean "not found", such as a folder
       that cannot be searched or a name that is too long *)
  et_parse : Path -> exn + ET.Element;  (* [ET.parse(p).getroot()] *)
  path_str : Path -> string;            (* [str(p)] *)
  path_suffix : Path -> string;         (* [p.suffix] *)
  image_open : Path -> string + (Z * Z);
    (* [PILImage.open(p)] and its [size]; on the left, the text of the
       exception when opening fails *)
  image_resize_save : Path -> Z -> Z -> string -> exn + Path;
    (* [img.resize((w, h), LANCZOS)], a named temporary file with the
       given suffix and [img.save] to it: the temporary path, or the
       exception one of these steps raises *)
  xl_add_image : Path -> bool;
    (* [XLImage(str(tmp))] and [ws.add_image] both succeed *)
  wb_save : string -> option exn;       (* [wb.save(output_file)] *)
  docx_add_picture : Path -> option exn;
    (* [run.add_picture(str(tmp), width=...)] *)
  mkdir_parents : Path -> option exn;
    (* [p.mkdir(parents=True, exist_ok=True)] *)
  docx_save : Path -> option exn        (* [doc.save(p)] *)
}.

(** How a run ends: an exception, or a normal return with what was printed
    and the document saved, if any, with its file name. *)
Inductive outcome (A : Type) : Type :=
| Raised (e : exn)
| Returned (printed : list string) (saved : option (string * A)).
Arguments Raised {A} e.
Arguments Returned {A} printed saved.

(** ** The image locator *)

Module Locator.
Import Py.

Section WithEnv.
Context `{Env}.

(** The candidate list of [find_image_file], in the order it is built. *)
Definition candidates (href : string) (xml_path : Path) : list Path :=
  let p := mkPath href in
  let c0 := if is_absolute p then [p] else [] in
  let xml_dir := parent xml_path in
  let fname := name (mkPath href) in
  (c0 ++ [joinpath xml_dir href;
          joinpath xml_dir fname;
          joinpath (joinpath xml_dir "ELV_files") fname])%list.

(** The path tested for a candidate: [cand.resolve()], or the candidate
    itself when resolving raises. *)
Definition resolved (cand : Path) : Path := default cand (resolve cand).

(** The loop over the candidates.  [resolve] is guarded by [try], [exists]
    is not: an error of the existence test ends the loop and is raised.
    The second component lists the candidates that were resolved and
    tested on the file system. *)
Fixpoint probe (cands : list Path) : (exn + option Path) * list Path :=
  match cands with
  | [] => (inr None, [])
  | cand :: rest =>
      let cand_resolved := resolved cand in
      match path_exists cand_resolved with
      | inl e => (inl e, [cand])
      | inr true => (inr (Some cand_resolved), [cand])
      | inr false => let '(r, tr) := probe rest in (r, cand :: tr)
      end
  end.

(** [find_image_file(href_raw, xml_path)] with its file-system trace. *)
(** The existence test of a candidate answers [False]. *)
Definition absent (cand : Path) : Prop :=
  path_exists (resolved cand) = inr false.

Definition find_image_file (href_raw : string) (xml_path : Path)
  : (exn + option Path) * list Path :=
  if negb (truthy href_raw) then (inr None, [])
  else probe (candidates (strip (replace_backslash href_raw)) xml_path).

End WithEnv.

End Locator.

(** ** Reading a coordinate *)

Module Coord.
Import ET.

(** [float(pos.get(k) or 0.0)]; [None] when [float] raises. *)
Definition axis (pos : Element) (k : string) : option PyFloat.t :=
  PyFloat.float (PyFloat.get_or_zero (get pos k)).

(** For stating properties: the attribute is missing, or present and
    empty. *)
Definition missing (pos : Element) (k : string) : Prop :=
  get pos k = None \/ get pos k = Some "".

End Coord.

(** ** The record builder of [export_xml_to_excel_v6.py] *)

Module Excel.
Import Py ET Items.

(** The body of [try: ... except Exception: coords_text = ""]. *)
Definition coords_of_pos (pos : Element) : option string :=
  x_val ← Coord.axis pos "x";
  y_val ← Coord.axis pos "y";
  z_val ← Coord.axis pos "z";
  Some (PyFloat.format_3f x_val ++ "m," ++ nl
        ++ PyFloat.format_3f y_val ++ "m," ++ nl
        ++ PyFloat.format_3f z_val ++ "m").

(** [coords_text] of the report sheet (lines 172-182). *)
Definition coords_text (clash : Element) : string :=
  match find_desc "pos3f" clash with
  | None => ""
  | Some pos => default "" (coords_of_pos pos)
  end.

(** [col_width_to_pixels(col_width)] for an integer width. *)
Definition col_width_to_pixels (col_width : Z) : Z := col_width * 7 + 5.

(** [int(x)] for a float. *)
Definition int_of_float (x : PyFloat.t) : exn + Z :=
  match PyFloat.to_int x with
  | PyFloat.IntOk k => inr k
  | PyFloat.IntNaN => inl ValueError
  | PyFloat.IntInf => inl OverflowError
  end.

(** [a / b] for two integers. *)
Definition div_int (a b : Z) : exn + PyFloat.t :=
  match PyFloat.div_Z a b with
  | PyFloat.DivOk q => inr q
  | PyFloat.DivZero => inl ZeroDivisionError
  | PyFloat.DivOverflow => inl OverflowError
  end.

(** [row_height_to_pixels(row_height_pts)] for an integer height:
    [int(row_height_pts * 96 / 72)]. *)
Definition row_height_to_pixels (row_height_pts : Z) : exn + Z :=
  match div_int (row_height_pts * 96) 72 with
  | inl e => inl e
  | inr q => int_of_float q
  end.

(** [COL_WIDTHS[6]], [DATA_ROW_HEIGHT], [IMAGE_PADDING_PX] *)
Definition COL_WIDTH_6 : Z := 45.
Definition DATA_ROW_HEIGHT : Z := 200.
Definition IMAGE_PADDING_PX : Z := 8.

(** [int(n * ratio)] for an integer [n] and a float [ratio]. *)
Definition int_scaled (n : Z) (ratio : PyFloat.t) : exn + Z :=
  match PyFloat.of_Z n with
  | PyFloat.Inf _ => inl OverflowError
  | x => int_of_float (PyFloat.mul x ratio)
  end.

(** The new size of a [w] by [h] image in a box of [max_w] by [max_h]:
    [ratio = min(max_w / w, max_h / h, 1.0)], then [int(w * ratio)] and
    [int(h * ratio)], evaluated in this order. *)
Definition scaled_size (max_w max_h w h : Z) : exn + (Z * Z) :=
  match div_int max_w w with
  | inl e => inl e
  | inr rw =>
      match div_int max_h h with
      | inl e => inl e
      | inr rh =>
          let ratio := PyFloat.min3 rw rh (PyFloat.of_Z 1) in
          match int_scaled w ratio with
          | inl e => inl e
          | inr new_w =>
              match int_scaled h ratio with
              | inl e => inl e
              | inr new_h => inr (new_w, new_h)
              end
          end
      end
  end.

(** What goes into the picture column of a row. *)
Inductive picture (P : Type) : Type :=
| Embedded (tmp : P)      (* a picture, from a temporary file *)
| Written (s : string).   (* a text *)
Arguments Embedded {P} tmp.
Arguments Written {P} s.

Section WithEnv.
Context `{Env}.

(** [resize_image_for_cell(orig_path, target_width_px, target_height_px,
    padding_px)], with what it prints.  Only [PILImage.open] is inside the
    [try]: the other steps raise. *)
Definition resize_image_for_cell (orig_path : Path)
           (target_width_px target_height_px padding_px : Z)
  : (exn + option Path) * list string :=
  match image_open orig_path with
  | inl e =>
      (inr None,
       ["Could not open image " ++ path_str orig_path ++ ": " ++ e])
  | inr (w, h) =>
      let max_w := Z.max 1 (target_width_px - padding_px) in
      let max_h := Z.max 1 (target_height_px - padding_px) in
      match scaled_size max_w max_h w h with
      | inl e => (inl e, [])
      | inr (new_w, new_h) =>
          let suffix :=
            if truthy (path_suffix orig_path) then path_suffix orig_path
            else ".png" in
          match image_resize_save orig_path new_w new_h suffix with
          | inl e => (inl e, [])
          | inr tmp_path => (inr (Some tmp_path), [])
          end
      end
  end.

(** Lines 205-223: the picture column of a clash, with what is printed on
    the way.  The locator and the resizing may raise. *)
Definition picture_cell (href_raw : string) (xml_path : Path)
  : (exn + picture Path) * list string :=
  match fst (Locator.find_image_file href_raw xml_path) with
  | inl e => (inl e, [])
  | inr None => (inr (Written href_raw), [])
  | inr (Some img_path) =>
      let target_w_px := col_width_to_pixels COL_WIDTH_6 in
      match row_height_to_pixels DATA_ROW_HEIGHT with
      | inl e => (inl e, [])
      | inr target_h_px =>
          let '(tmp_img, printed) :=
            resize_image_for_cell img_path target_w_px target_h_px
                                  IMAGE_PADDING_PX in
          match tmp_img with
          | inl e => (inl e, printed)
          | inr (Some tmp) =>
              (inr (if xl_add_image tmp then Embedded tmp
                    else Written (path_str img_path)), printed)
          | inr None => (inr (Written (path_str img_path)), printed)
          end
      end
  end.

(** What one turn of the report loop computes for a clash: the cells of
    columns 1 to 5, and the outcome of the picture column, which is an
    exception when the locator or the resizing raises. *)
Record Row : Type := MkRow {
  row_index : nat;
  row_details : string;
  row_item1 : string;
  row_item2 : string;
  row_item2_name : string;
  row_href : string;
  row_image : exn + option Path;
  row_picture : exn + picture Path;
  row_printed : list string;
  row_group : string;
  row_name : string;
  row_distance : string;
  row_coords : string
}.

(** One turn of the loop at lines 159-238. *)
Definition report_row (root : Element) (xml_path : Path)
           (i : nat) (clash : Element) : Row :=
  let clash_group := Group.group_by_guid root clash in
  let clash_name := get_or clash "name" ("Clash" ++ str_of_N (N.of_nat i)) in
  let distance := get_or clash "distance" "N/A" in
  let coords := coords_text clash in
  let objs := findall_desc "clashobject" clash in
  let item1_text :=
    match objs !! 0%nat with Some o => get_item_details (Some o) | None => "" end in
  let item2_text :=
    match objs !! 1%nat with Some o => get_item_details (Some o) | None => "" end in
  let item2_name := get_item_name_short item2_text in
  let between_line :=
    "Between: " ++ get_item_name_short item1_text ++ " and " ++ item2_name ++ nl in
  let clash_details :=
    "Clash Group: " ++ clash_group ++ nl
    ++ between_line ++ nl
    ++ clash_name ++ nl
    ++ "Distance: " ++ distance ++ "m" ++ nl
    ++ "Clash Point:" ++ nl ++ coords in
  let href_raw := or_empty (get clash "href") in
  {| row_index := i;
     row_details := clash_details;
     row_item1 := item1_text;
     row_item2 := item2_text;
     row_item2_name := item2_name;
     row_href := href_raw;
     row_image := fst (Locator.find_image_file href_raw xml_path);
     row_picture := fst (picture_cell href_raw xml_path);
     row_printed := snd (picture_cell href_raw xml_path);
     row_group := clash_group;
     row_name := clash_name;
     row_distance := distance;
     row_coords := coords |}.

(** [for i, clash in enumerate(clashes, start=i)] *)
Fixpoint report_rows_from (root : Element) (xml_path : Path)
         (i : nat) (clashes : list Node) : list Row :=
  match clashes with
  | [] => []
  | clash :: rest =>
      report_row root xml_path i (node_elt clash)
        :: report_rows_from root xml_path (S i) rest
  end.

(** [clashes = root.findall(".//clashresult")] *)
Definition clashes_of (root : Element) : list Node :=
  findall_desc_at "clashresult" (MkNode [] root).

(** The rows of the report sheet. *)
Definition report_rows (root : Element) (xml_path : Path) : list Row :=
  report_rows_from root xml_path 1 (clashes_of root).

(** A row of the Clash_Points sheet; the coordinates are
    [round(v, 3)] when there is a position. *)
Record PointRow : Type := MkPointRow {
  pt_id : nat;
  pt_group : string;
  pt_name : string;
  pt_xyz : option (PyFloat.t * PyFloat.t * PyFloat.t)
}.

(** Lines 283-289: no [try] around the conversions. *)
Definition point_xyz (clash : Element)
  : exn + option (PyFloat.t * PyFloat.t * PyFloat.t) :=
  match find_desc "pos3f" clash with
  | None => inr None
  | Some pos =>
      match Coord.axis pos "x" with
      | None => inl ValueError
      | Some x_val =>
          match Coord.axis pos "y" with
          | None => inl ValueError
          | Some y_val =>
              match Coord.axis pos "z" with
              | None => inl ValueError
              | Some z_val =>
                  inr (Some (PyFloat.round3 x_val, PyFloat.round3 y_val,
                             PyFloat.round3 z_val))
              end
          end
      end
  end.

Definition point_row (root : Element) (i : nat) (clash : Node)
  : exn + PointRow :=
  let clash_group := Group.group_by_containment root clash in
  let clash_name :=
    get_or (node_elt clash) "name" ("Clash" ++ str_of_N (N.of_nat i)) in
  match point_xyz (node_elt clash) with
  | inl e => inl e
  | inr xyz =>
      inr {| pt_id := i; pt_group := clash_group;
             pt_name := clash_name; pt_xyz := xyz |}
  end.

Fixpoint point_rows_from (root : Element) (i : nat) (clashes : list Node)
  : exn + list PointRow :=
  match clashes with
  | [] => inr []
  | clash :: rest =>
      match point_row root i clash with
      | inl e => inl e
      | inr row =>
          match point_rows_from root (S i) rest with
          | inl e => inl e
          | inr rows => inr (row :: rows)
          end
      end
  end.

Definition point_rows (root : Element) : exn + list PointRow :=
  point_rows_from root 1 (clashes_of root).

Record Workbook : Type := MkWorkbook {
  report : list Row;
  points : list PointRow
}.

(** The exception that ends the report loop, if any: that of the first
    row whose picture column raises. *)
Fixpoint report_failure (rows : list Row) : option exn :=
  match rows with
  | [] => None
  | row :: rest =>
      match row_picture row with
      | inl e => Some e
      | inr _ => report_failure rest
      end
  end.

(** What the report loop prints. *)
Definition report_printed (rows : list Row) : list string :=
  flat_map row_printed rows.

(** [export_to_excel(xml_file, output_file)].  Cell styling and the table
    and border passes only decorate the rows.  The report loop, the
    Clash_Points loop and [wb.save] run in this order, and each may raise;
    nothing is saved unless all three complete. *)
Definition export_to_excel (xml_file output_file : string)
  : outcome Workbook :=
  let xml_path := mkPath xml_file in
  match path_exists xml_path with
  | inl e => Raised e
  | inr false => Returned ["XML file not found: " ++ xml_file] None
  | inr true =>
      match et_parse xml_path with
      | inl e => Raised e
      | inr root =>
          let rows := report_rows root xml_path in
          match report_failure rows with
          | Some e => Raised e
          | None =>
              match point_rows root with
              | inl e => Raised e
              | inr pts =>
                  match wb_save output_file with
                  | Some e => Raised e
                  | None =>
                      Returned (report_printed rows
                                  ++ [("Saved: " ++ output_file)%string])%list
                               (Some (output_file,
                                      {| report := rows; points := pts |}))
                  end
              end
          end
      end
  end.

End WithEnv.

End Excel.

(** ** The table builder of [export_xml_to_word_v4.py] *)

Module Word.
Import Py ET Items.

(** Lines 177-183: the conversions are not guarded. *)
Definition coords_text (clash : Element) : exn + string :=
  match find_desc "pos3f" clash with
  | None => inr ""
  | Some pos =>
      match Coord.axis pos "x" with
      | None => inl ValueError
      | Some x_val =>
          match Coord.axis pos "y" with
          | None => inl ValueError
          | Some y_val =>
              match Coord.axis pos "z" with
              | None => inl ValueError
              | Some z_val =>
                  inr (PyFloat.format_3f x_val ++ "m, "
                       ++ PyFloat.format_3f y_val ++ "m, "
                       ++ PyFloat.format_3f z_val ++ "m")
              end
          end
      end
  end.

(** [IMG_MAX_W_CM] and [IMG_MAX_H_CM], both [7.5]. *)
Definition IMG_MAX_CM : PyFloat.t :=
  default PyFloat.zero (PyFloat.of_string "7.5").

(** [int(max_cm * 96 / 2.54)] *)
Definition cm_to_pixels (max_cm : PyFloat.t) : exn + Z :=
  match PyFloat.div (PyFloat.mul max_cm (PyFloat.of_Z 96))
                    (default PyFloat.zero (PyFloat.of_string "2.54")) with
  | Some q => Excel.int_of_float q
  | None => inl ZeroDivisionError
  end.

Section WithEnv.
Context `{Env}.

(** [resize_image_for_cell(orig_path, max_width_cm, max_height_cm)] of the
    Word exporter, with what it prints.  Only [PILImage.open] is inside
    the [try]. *)
Definition resize_image_for_cell (orig_path : Path)
           (max_width_cm max_height_cm : PyFloat.t)
  : (exn + option Path) * list string :=
  match image_open orig_path with
  | inl e =>
      (inr None,
       ["Could not open image " ++ path_str orig_path ++ ": " ++ e])
  | inr (w, h) =>
      match cm_to_pixels max_width_cm with
      | inl e => (inl e, [])
      | inr max_w_px =>
          match cm_to_pixels max_height_cm with
          | inl e => (inl e, [])
          | inr max_h_px =>
              match Excel.scaled_size max_w_px max_h_px w h with
              | inl e => (inl e, [])
              | inr (new_w, new_h) =>
                  match image_resize_save orig_path new_w new_h ".png" with
                  | inl e => (inl e, [])
                  | inr tmp_path => (inr (Some tmp_path), [])
                  end
              end
          end
      end
  end.

(** Lines 197-208: the picture cell of a clash, with what is printed on
    the way.  The locator, the resizing and [add_picture] may raise. *)
Definition picture_cell (href_raw : string) (xml_path : Path)
  : (exn + Excel.picture Path) * list string :=
  match fst (Locator.find_image_file href_raw xml_path) with
  | inl e => (inl e, [])
  | inr None => (inr (Excel.Written href_raw), [])
  | inr (Some img_path) =>
      let '(tmp_img, printed) :=
        resize_image_for_cell img_path IMG_MAX_CM IMG_MAX_CM in
      match tmp_img with
      | inl e => (inl e, printed)
      | inr (Some tmp) =>
          match docx_add_picture tmp with
          | Some e => (inl e, printed)
          | None => (inr (Excel.Embedded tmp), printed)
          end
      | inr None => (inr (Excel.Written (path_str img_path)), printed)
      end
  end.

(** A row of the table. *)
Record Row : Type := MkRow {
  row_no : string;
  row_details : string;
  row_item1 : string;
  row_item2 : string;
  row_href : string;
  row_picture : Excel.picture Path;
  row_printed : list string
}.

(** One turn of the loop at lines 159-208. *)
Definition table_row (root : Element) (xml_path : Path)
           (i : nat) (clash : Element) : exn + Row :=
  let clash_group := Group.group_by_guid root clash in
  let clash_name := get_or clash "name" ("Clash" ++ str_of_N (N.of_nat i)) in
  let distance := get_or clash "distance" "N/A" in
  match coords_text clash with
  | inl e => inl e
  | inr coords =>
      let objs := findall_desc "clashobject" clash in
      let item1_text :=
        match objs !! 0%nat with
        | Some o => get_item_details (Some o) | None => "" end in
      let item2_text :=
        match objs !! 1%nat with
        | Some o => get_item_details (Some o) | None => "" end in
      let between_line :=
        "Between: " ++ get_item_name_short item1_text ++ " and "
        ++ get_item_name_short item2_text ++ nl in
      let clash_details :=
        "Clash Group: " ++ clash_group ++ nl ++ between_line
        ++ clash_name ++ nl ++ "Distance: " ++ distance ++ "m" ++ nl
        ++ "Clash Point: " ++ coords in
      let href_raw := or_empty (get clash "href") in
      match picture_cell href_raw xml_path with
      | (inl e, _) => inl e
      | (inr cell, printed) =>
          inr {| row_no := str_of_N (N.of_nat i);
                 row_details := clash_details;
                 row_item1 := item1_text;
                 row_item2 := item2_text;
                 row_href := href_raw;
                 row_picture := cell;
                 row_printed := printed |}
      end
  end.

Fixpoint table_rows_from (root : Element) (xml_path : Path)
         (i : nat) (clashes : list Element) : exn + list Row :=
  match clashes with
  | [] => inr []
  | clash :: rest =>
      match table_row root xml_path i clash with
      | inl e => inl e
      | inr row =>
          match table_rows_from root xml_path (S i) rest with
          | inl e => inl e
          | inr rows => inr (row :: rows)
          end
      end
  end.

(** [export_to_word(xml_file, output_file)].  Page set-up and header cells
    only decorate the table.  The loop over the clashes, the creation of
    the output folder and [doc.save] run in this order, and each may raise;
    nothing is saved unless all three complete. *)
Definition export_to_word (xml_file output_file : string)
  : outcome (list Row) :=
  let xml_path := mkPath xml_file in
  match path_exists xml_path with
  | inl e => Raised e
  | inr false => Returned ["XML file not found: " ++ xml_file] None
  | inr true =>
      match et_parse xml_path with
      | inl e => Raised e
      | inr root =>
          match table_rows_from root xml_path 1
                                (findall_desc "clashresult" root) with
          | inl e => Raised e
          | inr rows =>
              let output_path := mkPath output_file in
              match mkdir_parents (parent output_path) with
              | Some e => Raised e
              | None =>
                  match docx_save output_path with
                  | Some e => Raised e
                  | None =>
                      Returned
                        (flat_map row_printed rows
                           ++ [("Saved: " ++ path_str output_path)%string])%list
                               (Some (output_file, rows))
                  end
              end
          end
      end
  end.

End WithEnv.

End Word.

(** ** The field scanner of [discover_xml_fields.py] *)

Module Discover.
Import Py ET.

(** [sorted(s)] for a set of strings. *)
Definition sorted (s : gset string) : list string :=
  merge_sort String.le (elements s).

(** [walk(elem, path)], threading the two sets it updates. *)
Fixpoint walk (elem : Element) (path : string)
         (st : gset string * gset string) : gset string * gset string :=
  match elem with
  | Elem tg attrs txt cs =>
      let tag_path := if truthy path then path ++ "/" ++ tg else tg in
      let attributes :=
        foldl (fun acc kv => {[tag_path ++ "/@" ++ fst kv]} ∪ acc)
              (snd st) attrs in
      let elements :=
        if otruthy (strip <$> txt) || (0 <? List.length cs)%nat
        then {[tag_path]} ∪ fst st else fst st in
      (fix go (l : list Element) (st : gset string * gset string) :=
         match l with
         | [] => st
         | c :: r => go r (walk c tag_path st)
         end) cs (elements, attributes)
  end.

(** For stating properties: every node below and including [e], in
    document order, with its slash-separated tag path. *)
Fixpoint nodes_with_path (path : string) (e : Element)
  : list (string * Element) :=
  match e with
  | Elem tg _ _ cs =>
      let tag_path := if truthy path then path ++ "/" ++ tg else tg in
      (tag_path, e) :: flat_map (nodes_with_path tag_path) cs
  end.

(** The node has text that is not blank, or has children. *)
Definition has_content (e : Element) : bool :=
  otruthy (strip <$> text e) || (0 <? List.length (children e))%nat.

(** [p] is the tag path of a node with content. *)
Definition element_path (path : string) (e : Element) (p : string) : Prop :=
  exists n, In (p, n) (nodes_with_path path e) /\ has_content n = true.

(** [q] is the tag path of a node, then [/@], then one of its attribute
    names. *)
Definition attribute_path (path : string) (e : Element) (q : string) : Prop :=
  exists p n a,
    In (p, n) (nodes_with_path path e)
    /\ In a (map fst (attrib n)) /\ q = p ++ "/@" ++ a.

(** The two sorted lists computed from the root. *)
Definition discover_root (root : Element) : list string * list string :=
  let st := walk root "" (∅, ∅) in
  (sorted (fst st), sorted (snd st)).

(** [discover_fields(xml_path)] *)
Definition discover_fields `{Env} (xml_path : Path)
  : exn + (list string * list string) :=
  match et_parse xml_path with
  | inl e => inl e
  | inr root => inr (discover_root root)
  end.

End Discover.

(** ** A small world for examples

    Paths are strings with [/] as separator, a path exists when it is
    listed, and parsing looks the document up. *)

Module Fixture.
Import Py ET.

Fixpoint last_slash (s : string) (i : nat) (acc : option nat) : option nat :=
  match s with
  | EmptyString => acc
  | String c r =>
      last_slash r (S i) (if Ascii.eqb c slash then Some i else acc)
  end.

Definition base_name (p : string) : string :=
  match last_slash p 0 None with
  | Some i => String.substring (S i) (String.length p - S i) p
  | None => p
  end.

Definition dir_name (p : string) : string :=
  match last_slash p 0 None with
  | Some i => String.substring 0 i p
  | None => "."
  end.

Definition join_path (p s : string) : string :=
  if String.prefix "/" s then s else p ++ "/" ++ s.

(** The text of a file name from its last dot, when the dot is neither
    first nor last. *)
Fixpoint last_dot (s : string) (i : nat) (acc : option nat) : option nat :=
  match s with
  | EmptyString => acc
  | String c r =>
      last_dot r (S i) (if Ascii.eqb c "."%char then Some i else acc)
  end.

Definition suffix (p : string) : string :=
  let n := base_name p in
  match last_dot n 0 None with
  | Some i =>
      if (0 <? i)%nat && (S i <? String.length n)%nat
      then String.substring i (String.length n - i) n
      else ""
  | None => ""
  end.

(** A file system holding [files], where the folders [locked] cannot be
    searched: testing a path below one of them is an error.  [docs] gives
    what parsing a file yields.  Files ending in [.jpg] open as pictures
    of 800 by 600 pixels. *)
Definition world_with (locked files : list string)
           (docs : list (string * (exn + Element)))
  : Env :=
  {| Path := string;
     mkPath := fun s => s;
     is_absolute := String.prefix "/";
     parent := dir_name;
     joinpath := join_path;
     name := base_name;
     resolve := Some;
     path_exists := fun p =>
       if existsb (fun d => String.prefix (d ++ "/") p) locked
       then inl OSError
       else inr (existsb (String.eqb p) files);
     et_parse := fun p =>
       match List.find (fun d => String.eqb (fst d) p) docs with
       | Some d => snd d
       | None => inl OSError
       end;
     path_str := fun p => p;
     path_suffix := suffix;
     image_open := fun p =>
       if existsb (String.eqb p) files
       then if String.eqb (suffix p) ".jpg" then inr (800, 600)%Z
            else inl "cannot identify image file"
       else inl "No such file or directory";
     image_resize_save := fun p w h sfx =>
       if ((0 <? w) && (0 <? h))%Z then inr ("/tmp/resized" ++ sfx)
       else inl ValueError;
     xl_add_image := fun _ => true;
     wb_save := fun out =>
       if String.eqb (base_name out) "" then Some OSError else None;
     docx_add_picture := fun _ => None;
     mkdir_parents := fun d =>
       if existsb (fun l => String.prefix l d) locked then Some OSError
       else None;
     docx_save := fun out =>
       if String.eqb (base_name out) "" then Some OSError else None |}.

(** A file system without restrictions. *)
Definition world := world_with [].

End Fixture.

(** ** Sample documents *)

Module Samples.
Import Py ET.

(** An element with children and no text, and one with text only. *)
Definition node (t : string) (a : list (string * string)) (cs : list Element)
  : Element := Elem t a None cs.
Definition leaf (t : string) (x : string) : Element := Elem t [] (Some x) [].

(** [<smarttag><name>n</name><value>v</value></smarttag>] *)
Definition smarttag (n v : string) : Element :=
  node "smarttag" [] [leaf "name" n; leaf "value" v].

(** [<pos3f x="1" y="2.5" z="-3.25"/>] *)
Definition pos_example : Element :=
  node "pos3f" [("x", "1"); ("y", "2.5"); ("z", "-3.25")] [].

(** A clash object naming its item twice, ["A"] then ["B"]. *)
Definition obj_A_B : Element :=
  node "clashobject" []
       [node "smarttags" []
             [smarttag "Item Name" "A"; smarttag "Item Name" "B";
              smarttag "Item Type" "Pipe"]].

(** A clash object naming its item ["A"], then with a blank value. *)
Definition obj_A_blank : Element :=
  node "clashobject" []
       [smarttag "Item Name" "A"; smarttag "Item Name" "  "].

(** Two tests, three results, one of them nested two levels deeper. *)
Definition doc_report : Element :=
  node "exchange" []
    [node "batchtest" []
       [node "clashtests" []
          [node "clashtest" [("name", "Pipes vs Ducts")]
             [node "clashresults" []
                [node "clashresult"
                      [("guid", "g1"); ("name", "Clash1");
                       ("distance", "-0.05");
                       ("href", "C:\Users\bob\ELV_files\img1.jpg")]
                      [node "clashpoint" [] [pos_example];
                       node "clashobjects" [] [obj_A_B; obj_A_blank]];
                 node "clashresult" [("guid", "g2")]
                      [node "clashpoint" [] [node "pos3f" [("y", "4")] []]]]];
           node "clashtest" [("name", "Walls")]
             [node "clashresult" [("guid", "g3")] []]]]].

(** The same guid under a test named ["Unknown Group"] and, later, under
    a test named ["B"]. *)
Definition doc_two_groups : Element :=
  node "exchange" []
    [node "clashtest" [("name", "Unknown Group")]
       [node "clashresult" [("guid", "g")] []];
     node "clashtest" [("name", "B")]
       [node "clashresult" [("guid", "g")] []]].

(** The same guid under a test without a name and, later, under ["B"]. *)
Definition doc_nameless_first : Element :=
  node "exchange" []
    [node "clashtest" []
       [node "clashresult" [("guid", "g")] []];
     node "clashtest" [("name", "B")]
       [node "clashresult" [("guid", "g")] []]].

(** A result whose position has an [x] that is not a number. *)
Definition clash_bad_axis : Element :=
  node "clashresult" [("guid", "g")]
       [node "pos3f" [("x", "abc"); ("y", "1"); ("z", "2")] []].

Definition doc_bad_axis : Element :=
  node "exchange" [] [node "clashtest" [("name", "T")] [clash_bad_axis]].

(** [<a><b x="1">text</b></a>] *)
Definition doc_a_b : Element :=
  node "a" [] [Elem "b" [("x", "1")] (Some "text") []].

(** A directory [/proj] holding the report, and the picture both next to
    it and under [ELV_files]. *)
Definition proj_files : list string :=
  ["/proj/report.xml"; "/proj/bad.xml"; "/proj/broken.xml";
   "/proj/img1.jpg"; "/proj/ELV_files/img1.jpg"].

Definition proj_docs : list (string * (exn + Element)) :=
  [("/proj/report.xml", inr doc_report);
   ("/proj/bad.xml", inr doc_bad_axis);
   ("/proj/broken.xml", inl ParseError)].

Definition world_proj : Env := Fixture.world proj_files proj_docs.




End Samples.

(** ** The summary of [export_xml_to_excel.py] *)

Module V0.
Import Py ET Items.

(** [filter(None, xs)] for values that are strings or [None]. *)
Definition keep_truthy (xs : list (option string)) : list string :=
  flat_map (fun o => match o with
                     | Some s => if truthy s then [s] else []
                     | None => []
                     end) xs.

(** Lines 142-151: the lines built from the dictionary [data]. *)
Definition summary_lines_v0 (data : gmap string string) : list string :=
  let typeLine1 :=
    join " " (keep_truthy [data !! "partSize"; data !! "itemType"]) in
  let typeLine2 :=
    if otruthy (data !! "inner") || otruthy (data !! "outer")
    then strip ("Pipe " ++ default "" (data !! "inner") ++ " x "
                ++ default "" (data !! "outer"))
    else "" in
  let l1 :=
    if otruthy (data !! "itemName")
    then ["Item Name: " ++ default "" (data !! "itemName")] else [] in
  let l2 :=
    if otruthy (data !! "network")
    then ["Network: " ++ default "" (data !! "network")] else [] in
  let l3 := if truthy typeLine1 then ["Item Type: " ++ typeLine1] else [] in
  let l4 := if truthy typeLine2 then [typeLine2] else [] in
  (l1 ++ l2 ++ l3 ++ l4)%list.

(** [get_item_details(clashObject)] of [export_xml_to_excel.py]. *)
Definition get_item_details_v0 (clashObject : option Element) : string :=
  match clashObject with
  | None => "Unknown"
  | Some o => join nl (summary_lines_v0 (resolve_tags_v0 o))
  end.

End V0.

(** ** Notions used to state further properties *)

Module Notions.
Import Py ET.

Definition is_Some_b {A : Type} (o : option A) : bool :=
  match o with Some _ => true | None => false end.

(** The names the summary of version 6 reads. *)
Definition recognised (n : string) : bool :=
  existsb (String.eqb n)
          ["Item Name"; "Civil3D General:Network name";
           "Civil3D General:Part Size Name"; "Item Type";
           "Civil3D General:Inner Diameter or Width";
           "Civil3D General:Outer Diameter or Width"].

(** The subtree reached from [e] by following child indices. *)
Fixpoint subtree_at (path : loc) (e : Element) : option Element :=
  match path with
  | [] => Some e
  | i :: r =>
      match children e !! i with
      | Some c => subtree_at r c
      | None => None
      end
  end.

(** [p] is a proper prefix of [q]: the node at [p] is a proper ancestor of
    the node at [q]. *)
Fixpoint is_proper_prefix (p q : loc) : bool :=
  match p, q with
  | [], _ :: _ => true
  | x :: p', y :: q' => Nat.eqb x y && is_proper_prefix p' q'
  | _, _ => false
  end.

(** Every axis of the position of the clash, if it has one, converts to a
    float. *)
Definition axes_readable (clash : Element) : bool :=
  match find_desc "pos3f" clash with
  | None => true
  | Some pos =>
      is_Some_b (Coord.axis pos "x") && is_Some_b (Coord.axis pos "y")
      && is_Some_b (Coord.axis pos "z")
  end.

(** No character of the string is a line boundary of [str.splitlines]. *)
Fixpoint no_linebreak (s : string) : bool :=
  match s with
  | EmptyString => true
  | String c r => negb (islinebreak c) && no_linebreak r
  end.

(** The string is empty or starts with a character that [sp] keeps. *)
Definition clean_start (sp : ascii -> bool) (s : string) : Prop :=
  match s with
  | EmptyString => True
  | String c _ => sp c = false
  end.

(** A step that may raise returns normally. *)
Definition completes {A : Type} (r : exn + A) : Prop := exists a, r = inr a.

Section WithEnv.
Context `{Env}.

(** The picture column that [export_to_excel] computes for a clash. *)
Definition excel_picture (xml_path : Path) (clash : Element)
  : exn + Excel.picture Path :=
  fst (Excel.picture_cell (or_empty (get clash "href")) xml_path).


End WithEnv.

End Notions.

(** * Properties *)

(** ** Element trees *)

Section ElementInduction.
Import ET.
Variable P : Element -> Prop.
Hypothesis step : forall t a x cs, Forall P cs -> P (Elem t a x cs).

(** Induction on a tree, with the property available for all children. *)
Lemma Element_forall_ind (e : Element) : P e.
Proof.
  revert e. fix IH 1. intros [t a x cs]. apply step.
  induction cs as [|c r IHr]; constructor; [apply IH | exact IHr].
Qed.
End ElementInduction.

Module ETFacts.
Import ET.

Lemma iter_unfold e : iter e = e :: descendants e.
Proof. destruct e; reflexivity. Qed.



Lemma iter_at_go_elts (p : loc) (cs : list Element) :
  Forall (fun c => forall q, map node_elt (iter_at q c) = iter c) cs ->
  forall i,
    map node_elt
        ((fix go (i : nat) (l : list Element) : list Node :=
            match l with
            | [] => []
            | c :: r => (iter_at (p ++ [i]) c ++ go (S i) r)%list
            end) i cs)
    = flat_map iter cs.
Proof.
  induction 1 as [|c r Hc _ IHr]; intros i; [reflexivity|].
  cbn [flat_map]. rewrite map_app, Hc, IHr. reflexivity.
Qed.

(** Forgetting positions gives back [iter]. *)
Lemma iter_at_elts e : forall p, map node_elt (iter_at p e) = iter e.
Proof.
  induction e as [tg a x cs IH] using Element_forall_ind; intros p.
  cbn [iter_at iter map node_elt]. f_equal. now apply iter_at_go_elts.
Qed.

Lemma descendants_at_elts n :
  map node_elt (descendants_at n) = descendants (node_elt n).
Proof.
  unfold descendants_at. destruct n as [p e]; cbn [node_loc node_elt].
  pose proof (iter_at_elts e p) as Hi. rewrite iter_unfold in Hi.
  destruct (iter_at p e) as [|m l]; [discriminate|].
  cbn in Hi |- *. now inversion Hi.
Qed.

Lemma filter_map_elts (f : Element -> bool) (l : list Node) :
  map node_elt (List.filter (fun m => f (node_elt m)) l)
  = List.filter f (map node_elt l).
Proof.
  induction l as [|m l IH]; [reflexivity|].
  cbn [List.filter map]. destruct (f (node_elt m)); cbn [map]; now rewrite IH.
Qed.

Lemma findall_desc_at_elts t n :
  map node_elt (findall_desc_at t n) = findall_desc t (node_elt n).
Proof.
  unfold findall_desc_at, findall_desc.
  now rewrite filter_map_elts, descendants_at_elts.
Qed.


End ETFacts.

(** ** The record builder *)

Module ExcelFacts.
Import Py ET ETFacts Excel.

Section WithEnv.
Context `{Env}.


Lemma report_rows_from_index root xml_path clashes :
  forall i,
    map row_index (report_rows_from root xml_path i clashes)
    = seq i (length clashes).
Proof.
  induction clashes as [|c r IH]; intros i; cbn; [reflexivity|].
  now rewrite IH.
Qed.


Lemma clashes_of_elts root :
  map node_elt (clashes_of root) = findall_desc "clashresult" root.
Proof. unfold clashes_of. now rewrite findall_desc_at_elts. Qed.


End WithEnv.


End ExcelFacts.

(** ** Group lookup *)

Module GroupFacts.
Import Py ET ETFacts Group.

Lemma scan_results_spec g test crs clash_group :
  truthy g = true ->
  scan_results (Some g) test crs clash_group
  = if existsb (fun cr => bool_decide (get cr "guid" = Some g)) crs
    then get_or test "name" unknown_group
    else clash_group.
Proof.
  intros Hg. induction crs as [|cr rest IH]; [reflexivity|].
  cbn [scan_results existsb otruthy]. rewrite Hg. cbn [andb].
  destruct (bool_decide (get cr "guid" = Some g)); [reflexivity | exact IH].
Qed.

Lemma scan_results_no_guid o test crs clash_group :
  otruthy o = false -> scan_results o test crs clash_group = clash_group.
Proof.
  intros Ho. induction crs as [|cr rest IH]; [reflexivity|].
  cbn [scan_results]. now rewrite Ho.
Qed.

Lemma scan_tests_no_guid o tests :
  otruthy o = false -> scan_tests o tests unknown_group = unknown_group.
Proof.
  intros Ho. induction tests as [|t rest IH]; [reflexivity|].
  cbn [scan_tests]. rewrite scan_results_no_guid by exact Ho.
  cbn. exact IH.
Qed.

(** A target without a guid, or with an empty one, gets the fallback
    label. *)
Lemma group_by_guid_missing_guid root clash :
  otruthy (get clash "guid") = false ->
  group_by_guid root clash = "Unknown Group".
Proof. intros Ho. unfold group_by_guid. now apply scan_tests_no_guid. Qed.

(** What the two loops compute: the name of the first test that holds the
    guid and whose name is present and is not the fallback label. *)
Lemma scan_tests_spec g tests :
  truthy g = true ->
  scan_tests (Some g) tests unknown_group
  = default unknown_group
      (head (List.filter (fun n => negb (String.eqb n unknown_group))
               (map (fun t => get_or t "name" unknown_group)
                    (List.filter (contains_guid g) tests)))).
Proof.
  intros Hg. induction tests as [|t rest IH]; [reflexivity|].
  cbn [scan_tests List.filter]. rewrite scan_results_spec by exact Hg.
  fold (contains_guid g t). destruct (contains_guid g t) eqn:Hc.
  - cbn [map List.filter].
    destruct (negb (String.eqb (get_or t "name" unknown_group) unknown_group))
      eqn:Hn; [reflexivity|].
    apply negb_false_iff, String.eqb_eq in Hn. rewrite Hn. exact IH.
  - cbn. exact IH.
Qed.

(** First match, as far as the code goes: when the first test holding
    the guid has a name other than the fallback label, that name is the
    answer. *)
Lemma group_by_guid_first_match root clash g pre test post :
  get clash "guid" = Some g -> truthy g = true ->
  findall_desc "clashtest" root = (pre ++ test :: post)%list ->
  Forall (fun t => contains_guid g t = false) pre ->
  contains_guid g test = true ->
  get_or test "name" unknown_group <> unknown_group ->
  group_by_guid root clash = get_or test "name" unknown_group.
Proof.
  intros Hguid Hg Htests Hpre Htest Hname.
  unfold group_by_guid. rewrite Hguid, Htests, scan_tests_spec by exact Hg.
  rewrite List.filter_app.
  assert (Hnil : List.filter (contains_guid g) pre = []).
  { clear -Hpre. induction Hpre as [|t l Ht _ IH]; [reflexivity|].
    cbn [List.filter]. now rewrite Ht. }
  rewrite Hnil. cbn [app List.filter]. rewrite Htest. cbn [map List.filter].
  apply String.eqb_neq in Hname. now rewrite Hname.
Qed.

(** C2: the lookup of the report sheet is not first-match.  The guid
    ["g"] occurs under a test named ["Unknown Group"] and, later, under a
    test named ["B"] (or: first under a test without a name): the lookup
    answers ["B"], the later group.  The Clash_Points sheet of the same
    workbook, which stops at the first test holding the result, answers
    ["Unknown Group"] for that result. *)
Theorem group_by_guid_later_group_wins :
  let clash := Samples.node "clashresult" [("guid", "g")] [] in
  group_by_guid Samples.doc_two_groups clash = "B"
  /\ group_by_guid Samples.doc_nameless_first clash = "B"
  /\ findall_desc_at "clashresult" (MkNode [] Samples.doc_two_groups)
     = [MkNode [0; 0]%nat clash; MkNode [1; 0]%nat clash]
  /\ group_by_containment Samples.doc_two_groups (MkNode [0; 0]%nat clash)
     = "Unknown Group"
  /\ group_by_containment Samples.doc_nameless_first (MkNode [0; 0]%nat clash)
     = "Unknown Group".
Proof. vm_compute. repeat split; reflexivity. Qed.

End GroupFacts.

(** ** The image locator *)

Module LocatorFacts.
Import Py Locator.

Section WithEnv.
Context `{Env}.

(** Only candidates of the list are tested, in order, and none after
    the one that ends the loop. *)
Lemma probe_trace_prefix cands :
  exists rest, cands = (snd (probe cands) ++ rest)%list.
Proof.
  induction cands as [|c r [rest IH]]; [now exists []|].
  cbn [probe]. destruct (path_exists (resolved c)) as [e|[|]].
  - now exists r.
  - now exists r.
  - destruct (probe r) as [res tr]. cbn [snd] in IH |- *.
    exists rest. cbn. now rewrite <- IH.
Qed.

(** Candidates whose test answers [False] are tested and passed over. *)
Lemma probe_skips (missing rest : list Path) r tr :
  Forall absent missing ->
  probe rest = (r, tr) ->
  probe (missing ++ rest) = (r, (missing ++ tr)%list).
Proof.
  intros Hm Hrest. induction Hm as [|c l Hc _ IH]; [exact Hrest|].
  cbn [app probe]. unfold absent in Hc. now rewrite Hc, IH.
Qed.


(** When every test answers [False], every candidate is tested and the
    answer is [None]. *)
Lemma probe_all_absent cands :
  Forall absent cands -> probe cands = (inr None, cands).
Proof.
  intros Hall.
  rewrite <- (app_nil_r cands) at 1.
  rewrite (probe_skips cands [] (inr None) [] Hall eq_refl).
  now rewrite app_nil_r.
Qed.


End WithEnv.



End LocatorFacts.

(** ** Tag resolution *)

Module ItemsFacts.
Import Py ET Items.

Lemma add_tag_other (n : string) (tags : gmap string string) (st : Element) :
  strip (findtext "name" "" st) <> n ->
  add_tag tags st !! n = tags !! n.
Proof.
  intros Hne. unfold add_tag.
  destruct (truthy (strip (findtext "name" "" st))); [|reflexivity].
  now apply lookup_insert_ne.
Qed.

Lemma add_tag_same (n : string) (tags : gmap string string) (st : Element) :
  strip (findtext "name" "" st) = n -> truthy n = true ->
  add_tag tags st !! n = Some (strip (findtext "value" "" st)).
Proof.
  intros Hn Ht. unfold add_tag. rewrite Hn, Ht. apply lookup_insert_eq.
Qed.

Lemma foldl_add_tag_others (n : string) (sts : list Element) :
  Forall (fun st => strip (findtext "name" "" st) <> n) sts ->
  forall tags : gmap string string,
    foldl add_tag tags sts !! n = tags !! n.
Proof.
  induction 1 as [|st r Hst _ IH]; intros tags; [reflexivity|].
  cbn [foldl]. rewrite IH. now apply add_tag_other.
Qed.

(** Every name kept by the resolver of version 6 is a trimmed, non-empty
    tag name of the object. *)
Lemma resolve_tags_names (obj : Element) (k v : string) :
  resolve_tags obj !! k = Some v ->
  truthy k = true
  /\ exists st, In st (findall_desc "smarttag" obj)
                /\ k = strip (findtext "name" "" st).
Proof.
  unfold resolve_tags.
  assert (Hgen : forall (sts : list Element) (tags : gmap string string),
             (forall k v, tags !! k = Some v ->
                truthy k = true
                /\ exists st, In st (findall_desc "smarttag" obj)
                              /\ k = strip (findtext "name" "" st)) ->
             (forall st, In st sts -> In st (findall_desc "smarttag" obj)) ->
             forall k v, foldl add_tag tags sts !! k = Some v ->
                truthy k = true
                /\ exists st, In st (findall_desc "smarttag" obj)
                              /\ k = strip (findtext "name" "" st)).
  { induction sts as [|st r IH]; intros tags Htags Hin k' v' Hk; [eauto|].
    cbn [foldl] in Hk. eapply IH; [| |exact Hk].
    - intros k2 v2. unfold add_tag.
      destruct (truthy (strip (findtext "name" "" st))) eqn:Ht; [|apply Htags].
      destruct (decide (strip (findtext "name" "" st) = k2)) as [<-|Hne].
      + intros _. split; [exact Ht|]. exists st. split; [|reflexivity].
        apply Hin. now left.
      + rewrite lookup_insert_ne by exact Hne. apply Htags.
    - intros st' Hst'. apply Hin. now right. }
  apply (Hgen _ ∅); [|auto]. intros k' v' Hk. now rewrite lookup_empty in Hk.
Qed.

(** The resolver of [export_xml_to_excel.py] keeps no empty value. *)
Lemma resolve_tags_v0_values (obj : Element) (k v : string) :
  resolve_tags_v0 obj !! k = Some v -> truthy v = true /\ truthy k = true.
Proof.
  unfold resolve_tags_v0.
  assert (Hgen : forall (sts : list Element) (data : gmap string string),
             (forall k v, data !! k = Some v -> truthy v = true /\ truthy k = true) ->
             forall k v, foldl add_tag_v0 data sts !! k = Some v ->
                         truthy v = true /\ truthy k = true).
  { induction sts as [|st r IH]; intros data Hdata k' v' Hk; [eauto|].
    cbn [foldl] in Hk. eapply IH; [|exact Hk].
    intros k2 v2. unfold add_tag_v0.
    destruct (truthy (strip (findtext "name" "" st))); cbn [negb orb];
      [|apply Hdata].
    destruct (truthy (strip (findtext "value" "" st))) eqn:Hv; cbn [negb];
      [|apply Hdata].
    destruct (data_key (strip (findtext "name" "" st))) as [key|] eqn:Hkey;
      [|apply Hdata].
    destruct (decide (key = k2)) as [<-|Hne].
    - rewrite lookup_insert_eq. intros [= <-]. split; [exact Hv|].
      unfold data_key in Hkey.
      repeat match type of Hkey with
             | (if ?c then _ else _) = _ => destruct c
             end; inversion Hkey; reflexivity.
    - rewrite lookup_insert_ne by exact Hne. apply Hdata. }
  apply (Hgen _ ∅). intros k' v' Hk. now rewrite lookup_empty in Hk.
Qed.

(** C4: the resolver of version 6 stores a tag whose value is blank.
    For an object naming its item ["A"] and then giving the same tag a
    blank value, the dictionary holds the empty string under
    ["Item Name"], and the summary loses the name; the resolver of
    [export_xml_to_excel.py] drops the blank tag and keeps ["A"]. *)
Theorem resolve_tags_keeps_blank_value :
  resolve_tags Samples.obj_A_blank !! "Item Name" = Some ""
  /\ get_item_details (Some Samples.obj_A_blank) = ""
  /\ resolve_tags_v0 Samples.obj_A_blank !! "itemName" = Some "A".
Proof. vm_compute. repeat split; reflexivity. Qed.

(** C5: when an object carries a tag named [n] and, later in document
    order, another tag named [n], and no tag after that one has this
    name, the dictionary gives [n] the (trimmed) value of the later tag. *)
Theorem resolve_tags_last_write_wins
        (obj : Element) (pre mid post : list Element) (a b : Element)
        (n : string) :
  findall_desc "smarttag" obj = (pre ++ a :: mid ++ b :: post)%list ->
  truthy n = true ->
  strip (findtext "name" "" a) = n ->
  strip (findtext "name" "" b) = n ->
  Forall (fun st => strip (findtext "name" "" st) <> n) post ->
  resolve_tags obj !! n = Some (strip (findtext "value" "" b)).
Proof.
  intros Hsts Hn _ Hb Hpost. unfold resolve_tags. rewrite Hsts.
  replace (pre ++ a :: mid ++ b :: post)%list
    with ((pre ++ a :: mid) ++ b :: post)%list
    by (rewrite <- app_assoc; reflexivity).
  rewrite foldl_app. cbn [foldl].
  rewrite foldl_add_tag_others by exact Hpost.
  now apply add_tag_same.
Qed.

(** Item Name ["A"] then ["B"]: the dictionary says ["B"], and so does
    the summary. *)
Lemma resolve_tags_last_write_wins_witness :
  resolve_tags Samples.obj_A_B !! "Item Name" = Some "B".
Proof.
  apply (resolve_tags_last_write_wins Samples.obj_A_B []
           [] [Samples.smarttag "Item Type" "Pipe"]
           (Samples.smarttag "Item Name" "A")
           (Samples.smarttag "Item Name" "B") "Item Name").
  - reflexivity.
  - reflexivity.
  - reflexivity.
  - reflexivity.
  - constructor; [vm_compute; discriminate | constructor].
Defined.

End ItemsFacts.

(** ** Coordinates *)

Module CoordFacts.
Import Py ET Coord.

Lemma missing_axis_zero pos k : missing pos k -> axis pos k = Some PyFloat.zero.
Proof. unfold axis. intros [-> | ->]; reflexivity. Qed.

Lemma format_zero : PyFloat.format_3f PyFloat.zero = "0.000".
Proof. reflexivity. Qed.

Lemma excel_coords_of_axes clash pos fx fy fz :
  find_desc "pos3f" clash = Some pos ->
  axis pos "x" = Some fx -> axis pos "y" = Some fy -> axis pos "z" = Some fz ->
  Excel.coords_text clash
  = PyFloat.format_3f fx ++ "m," ++ nl
    ++ PyFloat.format_3f fy ++ "m," ++ nl
    ++ PyFloat.format_3f fz ++ "m".
Proof.
  intros Hpos Hx Hy Hz. unfold Excel.coords_text, Excel.coords_of_pos.
  rewrite Hpos, Hx, Hy, Hz. reflexivity.
Qed.

Lemma word_coords_of_axes clash pos fx fy fz :
  find_desc "pos3f" clash = Some pos ->
  axis pos "x" = Some fx -> axis pos "y" = Some fy -> axis pos "z" = Some fz ->
  Word.coords_text clash
  = inr (PyFloat.format_3f fx ++ "m, "
         ++ PyFloat.format_3f fy ++ "m, "
         ++ PyFloat.format_3f fz ++ "m").
Proof.
  intros Hpos Hx Hy Hz. unfold Word.coords_text.
  rewrite Hpos, Hx, Hy, Hz. reflexivity.
Qed.

(** On the report sheet a conversion that fails empties the whole
    coordinate text. *)
Lemma excel_coords_all_or_nothing clash pos :
  find_desc "pos3f" clash = Some pos ->
  axis pos "x" = None \/ axis pos "y" = None \/ axis pos "z" = None ->
  Excel.coords_text clash = "".
Proof.
  intros Hpos Hbad. unfold Excel.coords_text, Excel.coords_of_pos.
  rewrite Hpos.
  destruct (axis pos "x") as [fx|]; [|reflexivity].
  destruct (axis pos "y") as [fy|]; [|reflexivity].
  destruct (axis pos "z") as [fz|]; [|reflexivity].
  destruct Hbad as [Hb | [Hb | Hb]]; discriminate.
Qed.

(** The Clash_Points sheet converts the same attributes unguarded. *)
Lemma point_xyz_bad_axis clash pos :
  find_desc "pos3f" clash = Some pos ->
  axis pos "x" = None \/ axis pos "y" = None \/ axis pos "z" = None ->
  Excel.point_xyz clash = inl ValueError.
Proof.
  intros Hpos Hbad. unfold Excel.point_xyz. rewrite Hpos.
  destruct (axis pos "x") as [fx|]; [|reflexivity].
  destruct (axis pos "y") as [fy|]; [|reflexivity].
  destruct (axis pos "z") as [fz|]; [|reflexivity].
  destruct Hbad as [Hb | [Hb | Hb]]; discriminate.
Qed.

Lemma point_xyz_only_value_error clash e :
  Excel.point_xyz clash = inl e -> e = ValueError.
Proof.
  unfold Excel.point_xyz.
  repeat match goal with
         | |- context [match ?x with _ => _ end] => destruct x
         end; congruence.
Qed.

Section WithEnv.
Context `{Env}.

Lemma point_rows_from_bad_axis root clashes :
  forall i,
    Exists (fun c => Excel.point_xyz (node_elt c) = inl ValueError) clashes ->
    Excel.point_rows_from root i clashes = inl ValueError.
Proof.
  induction clashes as [|c r IH]; intros i Hex; [inversion Hex|].
  cbn [Excel.point_rows_from]. unfold Excel.point_row.
  destruct (Excel.point_xyz (node_elt c)) as [e|xyz] eqn:Hc.
  - now rewrite (point_xyz_only_value_error _ _ Hc).
  - inversion Hex as [? ? Hhd|? ? Htl]; subst; [congruence|].
    now rewrite (IH (S i) Htl).
Qed.

(** Once the report loop has completed, a single result with an
    unreadable axis aborts the whole export with [ValueError]: no workbook
    is saved. *)
Lemma export_to_excel_bad_axis xml_file output_file root clash pos :
  path_exists (mkPath xml_file) = inr true ->
  et_parse (mkPath xml_file) = inr root ->
  Excel.report_failure (Excel.report_rows root (mkPath xml_file)) = None ->
  In clash (findall_desc "clashresult" root) ->
  find_desc "pos3f" clash = Some pos ->
  axis pos "x" = None \/ axis pos "y" = None \/ axis pos "z" = None ->
  Excel.export_to_excel xml_file output_file = Raised ValueError.
Proof.
  intros Hex Hparse Hrep Hin Hpos Hbad. unfold Excel.export_to_excel.
  rewrite Hex, Hparse, Hrep. unfold Excel.point_rows.
  rewrite point_rows_from_bad_axis; [reflexivity|].
  rewrite <- ExcelFacts.clashes_of_elts in Hin.
  apply in_map_iff in Hin as (c & <- & Hc).
  apply List.Exists_exists. exists c. split; [exact Hc|].
  now apply (point_xyz_bad_axis _ pos).
Qed.


End WithEnv.



(** C7: a position whose [x] is not a number.  The report loop leaves the
    coordinate text empty, but the Clash_Points loop of the same function
    converts the attribute again without a guard: the export raises
    [ValueError] and saves nothing.  The Word exporter raises as well. *)
Theorem bad_axis_aborts_export :
  Excel.coords_text Samples.clash_bad_axis = ""
  /\ @Excel.export_to_excel Samples.world_proj "/proj/bad.xml" "out.xlsx"
     = Raised ValueError
  /\ @Word.export_to_word Samples.world_proj "/proj/bad.xml" "out.docx"
     = Raised ValueError.
Proof. vm_compute. repeat split; reflexivity. Qed.

(** C8: a position with [x="1"], [y="2.5"], [z="-3.25"] is rendered as
    [1.000m,], [2.500m,], [-3.250m] on three lines. *)
Theorem coords_text_example (clash pos : Element) :
  find_desc "pos3f" clash = Some pos ->
  get pos "x" = Some "1" -> get pos "y" = Some "2.5" ->
  get pos "z" = Some "-3.25" ->
  Excel.coords_text clash = "1.000m," ++ nl ++ "2.500m," ++ nl ++ "-3.250m".
Proof.
  intros Hpos Hx Hy Hz. unfold Excel.coords_text, Excel.coords_of_pos, axis.
  rewrite Hpos, Hx, Hy, Hz. vm_compute. reflexivity.
Qed.

Lemma coords_text_example_witness :
  Excel.coords_text (Samples.node "clashresult" [("guid", "g1")]
                       [Samples.node "clashpoint" [] [Samples.pos_example]])
  = "1.000m," ++ nl ++ "2.500m," ++ nl ++ "-3.250m".
Proof.
  apply (coords_text_example _ Samples.pos_example); reflexivity.
Defined.

(** C10: when the position lacks an axis attribute, or carries it empty,
    the axis is read as [0.0], the same float as for ["0"], and rendered
    [0.000m]; the coordinate text is not left empty on that account.  The
    Word exporter does the same. *)
Theorem missing_axis_rendered_as_zero (clash pos : Element) :
  find_desc "pos3f" clash = Some pos ->
  (forall k, missing pos k -> axis pos k = PyFloat.of_string "0")
  /\ (forall fy fz,
        missing pos "x" -> axis pos "y" = Some fy -> axis pos "z" = Some fz ->
        Excel.coords_text clash
        = "0.000m," ++ nl ++ PyFloat.format_3f fy ++ "m," ++ nl
          ++ PyFloat.format_3f fz ++ "m"
        /\ Word.coords_text clash
           = inr ("0.000m, " ++ PyFloat.format_3f fy ++ "m, "
                  ++ PyFloat.format_3f fz ++ "m"))
  /\ (forall fx fz,
        axis pos "x" = Some fx -> missing pos "y" -> axis pos "z" = Some fz ->
        Excel.coords_text clash
        = PyFloat.format_3f fx ++ "m," ++ nl ++ "0.000m," ++ nl
          ++ PyFloat.format_3f fz ++ "m"
        /\ Word.coords_text clash
           = inr (PyFloat.format_3f fx ++ "m, " ++ "0.000m, "
                  ++ PyFloat.format_3f fz ++ "m"))
  /\ (forall fx fy,
        axis pos "x" = Some fx -> axis pos "y" = Some fy -> missing pos "z" ->
        Excel.coords_text clash
        = PyFloat.format_3f fx ++ "m," ++ nl ++ PyFloat.format_3f fy
          ++ "m," ++ nl ++ "0.000m"
        /\ Word.coords_text clash
           = inr (PyFloat.format_3f fx ++ "m, " ++ PyFloat.format_3f fy
                  ++ "m, " ++ "0.000m")).
Proof.
  intros Hpos. split; [|split; [|split]].
  - intros k Hk. now rewrite missing_axis_zero.
  - intros fy fz Hx Hy Hz. apply missing_axis_zero in Hx.
    now rewrite (excel_coords_of_axes _ _ _ _ _ Hpos Hx Hy Hz),
                (word_coords_of_axes _ _ _ _ _ Hpos Hx Hy Hz).
  - intros fx fz Hx Hy Hz. apply missing_axis_zero in Hy.
    now rewrite (excel_coords_of_axes _ _ _ _ _ Hpos Hx Hy Hz),
                (word_coords_of_axes _ _ _ _ _ Hpos Hx Hy Hz).
  - intros fx fy Hx Hy Hz. apply missing_axis_zero in Hz.
    now rewrite (excel_coords_of_axes _ _ _ _ _ Hpos Hx Hy Hz),
                (word_coords_of_axes _ _ _ _ _ Hpos Hx Hy Hz).
Qed.

(** The second result of the sample report has a position with [y="4"]
    only: its text is [0.000m,], [4.000m,], [0.000m]. *)
Lemma missing_axis_rendered_as_zero_witness :
  Excel.coords_text
    (Samples.node "clashresult" [("guid", "g2")]
       [Samples.node "clashpoint" [] [Samples.node "pos3f" [("y", "4")] []]])
  = "0.000m," ++ nl ++ "4.000m," ++ nl ++ "0.000m".
Proof.
  destruct (missing_axis_rendered_as_zero
              (Samples.node "clashresult" [("guid", "g2")]
                 [Samples.node "clashpoint" []
                    [Samples.node "pos3f" [("y", "4")] []]])
              (Samples.node "pos3f" [("y", "4")] []) eq_refl)
    as (_ & Hx & _).
  destruct (Hx (PyFloat.Finite false 4503599627370496 (-50))
               PyFloat.zero (or_introl eq_refl) eq_refl eq_refl)
    as (He & _).
  exact He.
Defined.

End CoordFacts.

(** ** The field scanner *)

Module DiscoverFacts.
Import Py ET Discover.

Lemma attributes_fold (tp : string) (attrs : list (string * string)) :
  forall (A : gset string) (q : string),
    q ∈ foldl (fun acc kv => {[tp ++ "/@" ++ fst kv]} ∪ acc) A attrs
    <-> q ∈ A \/ exists a, In a (map fst attrs) /\ q = tp ++ "/@" ++ a.
Proof.
  induction attrs as [|[k v] r IH]; intros A q; cbn [foldl map fst In].
  - split; [now left | intros [Hq | (a & [] & _)]; exact Hq].
  - rewrite IH, elem_of_union, elem_of_singleton. split.
    + intros [[-> | Hq] | (a & Ha & ->)].
      * right. exists k. now split; [left|].
      * now left.
      * right. exists a. now split; [right|].
    + intros [Hq | (a & [<- | Ha] & ->)].
      * left. now right.
      * left. now left.
      * right. now exists a.
Qed.

Lemma sorted_spec (s : gset string) :
  Sorted String.le (sorted s) /\ NoDup (sorted s)
  /\ forall p, In p (sorted s) <-> p ∈ s.
Proof.
  unfold sorted. split; [apply Sorted_merge_sort; apply _|]. split.
  - rewrite merge_sort_Permutation. apply NoDup_elements.
  - intros p. rewrite <- list_elem_of_In, merge_sort_Permutation.
    apply elem_of_elements.
Qed.

(** What one call of [walk] adds to the two sets. *)
Lemma walk_spec (e : Element) :
  forall (path : string) (st : gset string * gset string),
    (forall p, p ∈ fst (walk e path st)
               <-> p ∈ fst st \/ element_path path e p)
    /\ (forall q, q ∈ snd (walk e path st)
                  <-> q ∈ snd st \/ attribute_path path e q).
Proof.
  induction e as [tg attrs txt cs IH] using Element_forall_ind.
  intros path st. unfold element_path, attribute_path.
  cbn [walk nodes_with_path].
  set (tp := if truthy path then path ++ "/" ++ tg else tg).
  set (go := fix go (l : list Element) (st : gset string * gset string) :=
         match l with
         | [] => st
         | c :: r => go r (walk c tp st)
         end).
  assert (Hgo : forall st0,
             (forall p, p ∈ fst (go cs st0)
                <-> p ∈ fst st0
                    \/ exists n, In (p, n) (flat_map (nodes_with_path tp) cs)
                                 /\ has_content n = true)
             /\ (forall q, q ∈ snd (go cs st0)
                   <-> q ∈ snd st0
                       \/ exists p n a,
                            In (p, n) (flat_map (nodes_with_path tp) cs)
                            /\ In a (map fst (attrib n))
                            /\ q = p ++ "/@" ++ a)).
  { clear st. induction IH as [|c r Hc _ IHr]; intros st0.
    - cbn. split; intros x; (split; [now left|]); intros [Hx|Hx];
        [exact Hx | | exact Hx | ].
      + now destruct Hx as (n & [] & _).
      + now destruct Hx as (p & n & a & [] & _).
    - cbn [go flat_map]. destruct (IHr (walk c tp st0)) as [He Ha].
      destruct (Hc tp st0) as [Hce Hca].
      unfold element_path, attribute_path in Hce, Hca. split.
      + intros p. rewrite He, Hce. split.
        * intros [[Hp | (n & Hn & Hcn)] | (n & Hn & Hcn)].
          -- now left.
          -- right. exists n. split; [apply in_app_iff; now left | exact Hcn].
          -- right. exists n. split; [apply in_app_iff; now right | exact Hcn].
        * intros [Hp | (n & Hn & Hcn)]; [left; now left|].
          apply in_app_iff in Hn as [Hn | Hn].
          -- left. right. now exists n.
          -- right. now exists n.
      + intros q. rewrite Ha, Hca. split.
        * intros [[Hq | (p & n & a & Hn & Hin & Heq)]
                 | (p & n & a & Hn & Hin & Heq)].
          -- now left.
          -- right. exists p, n, a.
             split; [apply in_app_iff; now left | now split].
          -- right. exists p, n, a.
             split; [apply in_app_iff; now right | now split].
        * intros [Hq | (p & n & a & Hn & Hin & Heq)]; [left; now left|].
          apply in_app_iff in Hn as [Hn | Hn].
          -- left. right. now exists p, n, a.
          -- right. now exists p, n, a. }
  destruct (Hgo
    (if otruthy (strip <$> txt) || (0 <? List.length cs)%nat
     then {[tp]} ∪ fst st else fst st,
     foldl (fun acc kv => {[tp ++ "/@" ++ fst kv]} ∪ acc) (snd st) attrs))
    as [He Ha].
  cbn [fst snd] in He, Ha. split.
  - intros p. rewrite He. cbn [In].
    change (otruthy (strip <$> txt) || (0 <? List.length cs)%nat)
      with (has_content (Elem tg attrs txt cs)).
    destruct (has_content (Elem tg attrs txt cs)) eqn:Hc.
    + rewrite elem_of_union, elem_of_singleton. split.
      * intros [[-> | Hp] | (n & Hn & Hcn)].
        -- right. exists (Elem tg attrs txt cs). split; [now left | exact Hc].
        -- now left.
        -- right. exists n. split; [now right | exact Hcn].
      * intros [Hp | (n & [Heq | Hn] & Hcn)].
        -- left. now right.
        -- left. left. now inversion Heq.
        -- right. now exists n.
    + split.
      * intros [Hp | (n & Hn & Hcn)]; [now left|].
        right. exists n. split; [now right | exact Hcn].
      * intros [Hp | (n & [Heq | Hn] & Hcn)]; [now left | | ].
        -- inversion Heq; subst. congruence.
        -- right. now exists n.
  - intros q. rewrite Ha, attributes_fold. cbn [In]. split.
    + intros [[Hq | (a & Hin & ->)] | (p & n & a & Hn & Hin & ->)].
      * now left.
      * right. exists tp, (Elem tg attrs txt cs), a.
        split; [now left | now split].
      * right. exists p, n, a. split; [now right | now split].
    + intros [Hq | (p & n & a & [Heq | Hn] & Hin & ->)].
      * left. now left.
      * inversion Heq; subst. left. right. now exists a.
      * right. now exists p, n, a.
Qed.

(** C9: on [<a><b x="1">text</b></a>] the scanner returns the elements
    [a], [a/b] and the attribute [a/b/@x].  For every document, a path is
    among the elements exactly when it is the tag path of a node with
    non-blank text or with children, a path is among the attributes
    exactly when it is a tag path followed by [/@] and an attribute name
    of that node, and both lists are sorted, without repetition. *)
Theorem discover_root_spec :
  discover_root Samples.doc_a_b = (["a"; "a/b"], ["a/b/@x"])
  /\ forall root : Element,
      (forall p, In p (fst (discover_root root)) <-> element_path "" root p)
      /\ (forall q, In q (snd (discover_root root)) <-> attribute_path "" root q)
      /\ Sorted String.le (fst (discover_root root))
      /\ NoDup (fst (discover_root root))
      /\ Sorted String.le (snd (discover_root root))
      /\ NoDup (snd (discover_root root)).
Proof.
  split; [vm_compute; reflexivity|].
  intros root. unfold discover_root. cbn [fst snd].
  destruct (walk_spec root "" (∅, ∅)) as [He Ha]. cbn [fst snd] in He, Ha.
  destruct (sorted_spec (fst (walk root "" (∅, ∅)))) as (Hs1 & Hn1 & Hm1).
  destruct (sorted_spec (snd (walk root "" (∅, ∅)))) as (Hs2 & Hn2 & Hm2).
  repeat split; try assumption.
  - intros Hp. apply Hm1, He in Hp. destruct Hp as [Hp|Hp]; [|exact Hp].
    now apply not_elem_of_empty in Hp.
  - intros Hp. apply Hm1, He. now right.
  - intros Hq. apply Hm2, Ha in Hq. destruct Hq as [Hq|Hq]; [|exact Hq].
    now apply not_elem_of_empty in Hq.
  - intros Hq. apply Hm2, Ha. now right.
Qed.

End DiscoverFacts.

(** * Further properties of the exporters *)

(** ** Group lookup on the report sheet *)

Module GroupMore.
Import Py ET ETFacts Group GroupFacts.

(** For a target with a guid, the report-sheet lookup answers with the name
    of the first test, in document order, that holds a result with this guid
    and whose name is present and is not the fallback label; with the
    fallback label when there is no such test. *)
Theorem group_by_guid_characterised (root clash : Element) (g : string) :
  get clash "guid" = Some g -> truthy g = true ->
  group_by_guid root clash
  = default "Unknown Group"
      (head (List.filter (fun n => negb (String.eqb n "Unknown Group"))
               (map (fun t => get_or t "name" "Unknown Group")
                    (List.filter (contains_guid g)
                                 (findall_desc "clashtest" root))))).
Proof.
  intros Hguid Hg. unfold group_by_guid. rewrite Hguid.
  now apply scan_tests_spec.
Qed.

Lemma group_by_guid_characterised_witness :
  group_by_guid Samples.doc_report
                (Samples.node "clashresult" [("guid", "g3")] [])
  = "Walls".
Proof.
  rewrite (group_by_guid_characterised Samples.doc_report _ "g3");
    reflexivity.
Defined.

(** A guid that occurs under no test (a result outside every test, or a
    document without tests) gets the fallback label. *)
Theorem group_by_guid_not_under_a_test (root clash : Element) (g : string) :
  get clash "guid" = Some g ->
  Forall (fun t => contains_guid g t = false) (findall_desc "clashtest" root) ->
  group_by_guid root clash = "Unknown Group".
Proof.
  intros Hguid Hnone. destruct (truthy g) eqn:Hg.
  - unfold group_by_guid. rewrite Hguid, scan_tests_spec by exact Hg.
    assert (Hnil : List.filter (contains_guid g) (findall_desc "clashtest" root)
                   = []).
    { induction Hnone as [|t l Ht _ IH]; [reflexivity|].
      cbn [List.filter]. now rewrite Ht. }
    now rewrite Hnil.
  - apply group_by_guid_missing_guid. now rewrite Hguid.
Qed.

Lemma group_by_guid_not_under_a_test_witness :
  group_by_guid
    (Samples.node "exchange" []
       [Samples.node "clashresult" [("guid", "g")] [];
        Samples.node "clashtest" [("name", "T")]
          [Samples.node "clashresult" [("guid", "h")] []]])
    (Samples.node "clashresult" [("guid", "g")] [])
  = "Unknown Group".
Proof.
  apply (group_by_guid_not_under_a_test _ _ "g"); [reflexivity|].
  repeat constructor.
Defined.

(** A target whose guid attribute is missing or empty gets the fallback
    label, whatever the document holds: no test is consulted. *)
Theorem group_by_guid_without_guid (root clash : Element) :
  get clash "guid" = None \/ get clash "guid" = Some "" ->
  group_by_guid root clash = "Unknown Group".
Proof.
  intros Hg. apply group_by_guid_missing_guid. now destruct Hg as [-> | ->].
Qed.

(** A result without a guid attribute, under a named test of the sample
    report, still gets the fallback label. *)
Lemma group_by_guid_without_guid_witness :
  group_by_guid Samples.doc_report (Samples.node "clashresult" [] [])
  = "Unknown Group".
Proof. apply group_by_guid_without_guid. now left. Defined.

Lemma group_by_guid_first_match_witness :
  group_by_guid Samples.doc_report
                (Samples.node "clashresult" [("guid", "g3")] [])
  = "Walls".
Proof.
  pose proof (group_by_guid_first_match Samples.doc_report
                (Samples.node "clashresult" [("guid", "g3")] []) "g3"
                (take 1 (findall_desc "clashtest" Samples.doc_report))
                (Samples.node "clashtest" [("name", "Walls")]
                   [Samples.node "clashresult" [("guid", "g3")] []])
                []) as Hfirst.
  apply Hfirst.
  - reflexivity.
  - reflexivity.
  - reflexivity.
  - repeat constructor.
  - reflexivity.
  - discriminate.
Defined.

End GroupMore.

(** ** The image locator *)

Module LocatorMore.
Import Py Locator LocatorFacts.

Section WithEnv.
Context `{Env}.

Lemma probe_sound cands p :
  fst (probe cands) = inr (Some p) ->
  path_exists p = inr true
  /\ exists cand, In cand cands /\ p = resolved cand.
Proof.
  induction cands as [|c r IH]; [discriminate|].
  cbn [probe]. destruct (path_exists (resolved c)) as [e|[|]] eqn:Hc.
  - discriminate.
  - intros [= <-]. split; [exact Hc|]. exists c. split; [now left | reflexivity].
  - destruct (probe r) as [res tr]. cbn [fst] in IH |- *. intros Hp.
    destruct (IH Hp) as (Hex & cand & Hin & ->).
    split; [exact Hex|]. exists cand. split; [now right | reflexivity].
Qed.

Lemma probe_none cands :
  fst (probe cands) = inr None <-> Forall absent cands.
Proof.
  induction cands as [|c r IH]; [split; [constructor | reflexivity]|].
  cbn [probe]. destruct (path_exists (resolved c)) as [e|[|]] eqn:Hc.
  - split; [discriminate|]. intros Hall. inversion Hall as [|? ? Hc' ?].
    unfold absent in Hc'. congruence.
  - split; [discriminate|]. intros Hall. inversion Hall as [|? ? Hc' ?].
    unfold absent in Hc'. congruence.
  - destruct (probe r) as [res tr]. cbn [fst] in IH |- *. rewrite IH.
    split; [now constructor | intros Hall; now inversion Hall].
Qed.

Lemma probe_none_trace cands :
  fst (probe cands) = inr None -> snd (probe cands) = cands.
Proof.
  intros Hn. apply probe_none in Hn. now rewrite probe_all_absent.
Qed.

(** The loop raises exactly the error of the first test that does not
    answer, when no earlier test answered [True]. *)
Lemma probe_raises cands e :
  fst (probe cands) = inl e
  <-> exists before c after,
        cands = (before ++ c :: after)%list
        /\ Forall absent before
        /\ path_exists (resolved c) = inl e.
Proof.
  induction cands as [|c r IH].
  - split; [discriminate|].
    intros (before & c & after & Heq & _). now destruct before.
  - cbn [probe]. destruct (path_exists (resolved c)) as [e'|[|]] eqn:Hc.
    + cbn [fst]. split.
      * intros [= ->]. exists [], c, r. repeat split; [constructor | exact Hc].
      * intros (before & c' & after & Heq & Hall & He).
        destruct before as [|b bs]; cbn [app] in Heq;
          injection Heq as <- _.
        -- congruence.
        -- inversion Hall as [|? ? Hb ?]. unfold absent in Hb. congruence.
    + cbn [fst]. split; [discriminate|].
      intros (before & c' & after & Heq & Hall & He).
      destruct before as [|b bs]; cbn [app] in Heq; injection Heq as <- _.
      * congruence.
      * inversion Hall as [|? ? Hb ?]. unfold absent in Hb. congruence.
    + destruct (probe r) as [res tr]. cbn [fst] in IH |- *. rewrite IH.
      split.
      * intros (before & c' & after & -> & Hall & He).
        exists (c :: before), c', after.
        repeat split; [now constructor | exact He].
      * intros (before & c' & after & Heq & Hall & He).
        destruct before as [|b bs]; cbn [app] in Heq;
          injection Heq as <- Hr.
        -- congruence.
        -- exists bs, c', after. repeat split; [exact Hr | | exact He].
           now inversion Hall.
Qed.

Lemma probe_found_trace cands p :
  fst (probe cands) = inr (Some p) ->
  exists tested cand,
    snd (probe cands) = (tested ++ [cand])%list
    /\ p = resolved cand
    /\ Forall absent tested.
Proof.
  induction cands as [|c r IH]; [discriminate|].
  cbn [probe]. destruct (path_exists (resolved c)) as [e|[|]] eqn:Hc.
  - discriminate.
  - intros [= <-]. exists [], c. repeat split. constructor.
  - destruct (probe r) as [res tr]. cbn [fst snd] in IH |- *. intros Hp.
    destruct (IH Hp) as (tested & cand & -> & -> & Hall).
    exists (c :: tested), cand. repeat split. now constructor.
Qed.

Lemma candidates_length href xml_path :
  (length (candidates href xml_path) <= 4)%nat.
Proof.
  unfold candidates. rewrite length_app.
  destruct (is_absolute (mkPath href)); cbn; lia.
Qed.

(** The locator never answers with a path that does not exist: what it
    returns is the resolved form of one of its candidates, and that path
    was found on the file system. *)
Theorem find_image_file_sound (href_raw : string) (xml_path p : Path) :
  fst (find_image_file href_raw xml_path) = inr (Some p) ->
  truthy href_raw = true
  /\ path_exists p = inr true
  /\ exists cand,
       In cand (candidates (strip (replace_backslash href_raw)) xml_path)
       /\ p = resolved cand.
Proof.
  unfold find_image_file. destruct (truthy href_raw); cbn [negb];
    [|discriminate].
  intros Hp. split; [reflexivity|]. now apply probe_sound.
Qed.

(** For a non-empty reference the locator answers [None] exactly when the
    existence test of every candidate answers [False], and then it has
    tested every candidate, in order; it raises an error exactly when the
    test of some candidate raises it and the tests of the candidates
    before that one answered [False]. *)
Theorem find_image_file_not_found (href_raw : string) (xml_path : Path) :
  truthy href_raw = true ->
  let cands := candidates (strip (replace_backslash href_raw)) xml_path in
  (fst (find_image_file href_raw xml_path) = inr None
   <-> Forall absent cands)
  /\ (fst (find_image_file href_raw xml_path) = inr None ->
      snd (find_image_file href_raw xml_path) = cands)
  /\ (forall e,
        fst (find_image_file href_raw xml_path) = inl e
        <-> exists before c after,
              cands = (before ++ c :: after)%list
              /\ Forall absent before
              /\ path_exists (resolved c) = inl e).
Proof.
  intros Hraw cands. unfold find_image_file. rewrite Hraw. cbn [negb].
  split; [apply probe_none|].
  split; [apply probe_none_trace | intros e; apply probe_raises].
Qed.

(** The locator tests at most four paths, always an initial segment of its
    candidate list; when it finds a file, that file's candidate is the last
    one tested and every candidate tested before it was missing. *)
Theorem find_image_file_trace (href_raw : string) (xml_path : Path) :
  let r := find_image_file href_raw xml_path in
  (length (snd r) <= 4)%nat
  /\ (exists rest,
        candidates (strip (replace_backslash href_raw)) xml_path
        = (snd r ++ rest)%list)
  /\ (forall p,
        fst r = inr (Some p) ->
        exists tested cand,
          snd r = (tested ++ [cand])%list
          /\ p = resolved cand
          /\ Forall (fun c => path_exists (resolved c) = inr false) tested).
Proof.
  cbn zeta. unfold find_image_file. destruct (truthy href_raw); cbn [negb].
  - destruct (probe_trace_prefix
                (candidates (strip (replace_backslash href_raw)) xml_path))
      as [rest Hrest].
    split; [|split].
    + pose proof (candidates_length (strip (replace_backslash href_raw))
                                    xml_path) as Hlen.
      rewrite Hrest, length_app in Hlen. lia.
    + now exists rest.
    + apply probe_found_trace.
  - cbn [fst snd]. split; [cbn; lia|]. split; [|discriminate].
    now exists (candidates (strip (replace_backslash href_raw)) xml_path).
Qed.

Lemma replace_backslash_idempotent s :
  replace_backslash (replace_backslash s) = replace_backslash s.
Proof.
  induction s as [|c r IH]; [reflexivity|]. cbn [replace_backslash].
  rewrite IH. f_equal.
  destruct (Ascii.eqb c backslash) eqn:Hc; [reflexivity|]. now rewrite Hc.
Qed.

(** A reference written with backslashes and the same reference written
    with forward slashes are located alike. *)
Theorem find_image_file_slash_insensitive (href_raw : string) (xml_path : Path) :
  find_image_file (replace_backslash href_raw) xml_path
  = find_image_file href_raw xml_path.
Proof.
  unfold find_image_file. rewrite replace_backslash_idempotent.
  destruct href_raw; reflexivity.
Qed.

End WithEnv.

(** In the sample directory, the picture of the first result is found next
    to the report. *)
Lemma find_image_file_sound_witness :
  @path_exists Samples.world_proj "/proj/img1.jpg" = inr true.
Proof.
  destruct (@find_image_file_sound Samples.world_proj
              "C:\Users\bob\ELV_files\img1.jpg" "/proj/report.xml"
              "/proj/img1.jpg" eq_refl) as (_ & Hex & _).
  exact Hex.
Defined.

(** A picture that is nowhere: the three candidates were all tested. *)
Lemma find_image_file_not_found_witness :
  snd (@find_image_file Samples.world_proj "pics\none.png" "/proj/report.xml")
  = ["/proj/pics/none.png"; "/proj/none.png"; "/proj/ELV_files/none.png"].
Proof.
  destruct (@find_image_file_not_found Samples.world_proj
              "pics\none.png" "/proj/report.xml" eq_refl) as (_ & Htrace & _).
  apply Htrace. reflexivity.
Defined.

Lemma find_image_file_trace_witness :
  exists tested cand,
    snd (@find_image_file Samples.world_proj
           "C:\Users\bob\ELV_files\img1.jpg" "/proj/report.xml")
    = (tested ++ [cand])%list
    /\ "/proj/img1.jpg" = @resolved Samples.world_proj cand
    /\ Forall (fun c => @path_exists Samples.world_proj
                          (@resolved Samples.world_proj c) = inr false) tested.
Proof.
  destruct (@find_image_file_trace Samples.world_proj
              "C:\Users\bob\ELV_files\img1.jpg" "/proj/report.xml")
    as (_ & _ & Hfound).
  apply Hfound. reflexivity.
Defined.

End LocatorMore.

(** ** Reversal and trimming of strings *)

Module StripFacts.
Import Py Notions.

Lemma append_assoc a b c : (a ++ b) ++ c = a ++ b ++ c.
Proof.
  induction a as [|x r IH]; [reflexivity|].
  change (String x ((r ++ b) ++ c) = String x (r ++ b ++ c)). now rewrite IH.
Qed.

Lemma rev_app_append s : forall acc,
  String.rev_app s acc = String.rev_app s "" ++ acc.
Proof.
  induction s as [|c r IH]; intros acc; [reflexivity|].
  cbn [String.rev_app]. rewrite (IH (String c acc)), (IH (String c "")).
  now rewrite append_assoc.
Qed.

Lemma rev_cons c s : String.rev (String c s) = String.rev s ++ String c "".
Proof. unfold String.rev. cbn [String.rev_app]. apply rev_app_append. Qed.

Lemma append_empty_r s : s ++ "" = s.
Proof.
  induction s as [|c r IH]; [reflexivity|].
  change (String c (r ++ "") = String c r). now rewrite IH.
Qed.

Lemma rev_append a : forall b,
  String.rev (a ++ b) = String.rev b ++ String.rev a.
Proof.
  induction a as [|c r IH]; intros b.
  - change (String.rev b = String.rev b ++ ""). now rewrite append_empty_r.
  - change (String.rev (String c (r ++ b))
            = String.rev b ++ String.rev (String c r)).
    rewrite !rev_cons, IH. now rewrite append_assoc.
Qed.

Lemma rev_involutive s : String.rev (String.rev s) = s.
Proof.
  induction s as [|c r IH]; [reflexivity|].
  rewrite rev_cons, rev_append, IH. reflexivity.
Qed.

Lemma truthy_append_r a b : truthy b = true -> truthy (a ++ b) = true.
Proof. destruct a, b; try reflexivity; discriminate. Qed.

Lemma truthy_rev s : truthy (String.rev s) = truthy s.
Proof.
  destruct s as [|c r]; [reflexivity|]. rewrite rev_cons.
  now apply truthy_append_r.
Qed.

Section Trim.
Variable sp : ascii -> bool.

Lemma lstrip_clean s : clean_start sp (lstrip_by sp s).
Proof.
  induction s as [|c r IH]; [exact I|]. cbn [lstrip_by].
  destruct (sp c) eqn:Hc; [exact IH | exact Hc].
Qed.

Lemma lstrip_fixed s : clean_start sp s -> lstrip_by sp s = s.
Proof.
  destruct s as [|c r]; [reflexivity|]. cbn [clean_start lstrip_by].
  now intros ->.
Qed.

(** What [lstrip] removes is a prefix. *)
Lemma lstrip_suffix s : exists w, s = w ++ lstrip_by sp s.
Proof.
  induction s as [|c r [w IH]]; [now exists ""|]. cbn [lstrip_by].
  destruct (sp c).
  - exists (String c w).
    change (String c r = String c (w ++ lstrip_by sp r)). now rewrite <- IH.
  - now exists "".
Qed.

Lemma clean_start_append a b :
  truthy a = true -> clean_start sp (a ++ b) -> clean_start sp a.
Proof. destruct a; [discriminate|]. intros _ Hc. exact Hc. Qed.

Lemma lstrip_keeps_clean_end s :
  clean_start sp (String.rev s) ->
  clean_start sp (String.rev (lstrip_by sp s)).
Proof.
  intros Hend. destruct (lstrip_suffix s) as [w Hw].
  destruct (lstrip_by sp s) as [|c r] eqn:Hl; [exact I|].
  rewrite Hw, rev_append in Hend.
  apply (clean_start_append _ _ (truthy_rev (String c r)) Hend).
Qed.

Lemma strip_clean s :
  clean_start sp (strip_by sp s)
  /\ clean_start sp (String.rev (strip_by sp s)).
Proof.
  unfold strip_by. split.
  - apply lstrip_keeps_clean_end. rewrite rev_involutive. apply lstrip_clean.
  - rewrite rev_involutive. apply lstrip_clean.
Qed.

Lemma strip_fixed s :
  clean_start sp s -> clean_start sp (String.rev s) -> strip_by sp s = s.
Proof.
  intros Hs He. unfold strip_by.
  rewrite (lstrip_fixed s Hs), (lstrip_fixed _ He). apply rev_involutive.
Qed.

(** Trimming twice is trimming once. *)
Lemma strip_idempotent s : strip_by sp (strip_by sp s) = strip_by sp s.
Proof. destruct (strip_clean s). now apply strip_fixed. Qed.

Lemma lstrip_all_blank u :
  lstrip_by sp u = "" -> truthy u = true ->
  forall x, clean_start sp (String.rev u ++ x) -> False.
Proof.
  induction u as [|a u IH]; [discriminate|]. cbn [lstrip_by].
  destruct (sp a) eqn:Ha; [|discriminate].
  intros Hu _ x Hx. destruct u as [|b u'].
  - cbn in Hx. congruence.
  - rewrite rev_cons, append_assoc in Hx.
    now apply (IH Hu eq_refl (String a "" ++ x)).
Qed.

(** A string that starts with a character that is kept does not trim to
    nothing. *)
Lemma strip_truthy c r :
  sp c = false -> truthy (strip_by sp (String c r)) = true.
Proof.
  intros Hc. unfold strip_by. rewrite truthy_rev.
  rewrite (lstrip_fixed (String c r)) by exact Hc.
  destruct (lstrip_by sp (String.rev (String c r))) as [|d t] eqn:Hl;
    [|reflexivity].
  exfalso. apply (lstrip_all_blank _ Hl (truthy_rev (String c r)) "").
  rewrite rev_involutive. exact Hc.
Qed.

End Trim.

End StripFacts.

(** ** Tag dictionaries and summaries *)

Module ItemsMore.
Import Py ET Items ItemsFacts StripFacts Notions.

Lemma fold_add_tag_lookup (n : string) (sts : list Element) :
  truthy n = true ->
  foldl add_tag ∅ sts !! n
  = (fun st => strip (findtext "value" "" st))
      <$> last (List.filter
                  (fun st => String.eqb (strip (findtext "name" "" st)) n) sts).
Proof.
  intros Hn. induction sts as [|st l IH] using rev_ind; [reflexivity|].
  rewrite foldl_app, List.filter_app. cbn [foldl List.filter].
  destruct (String.eqb (strip (findtext "name" "" st)) n) eqn:Hst.
  - apply String.eqb_eq in Hst. rewrite last_snoc. cbn.
    now apply add_tag_same.
  - apply String.eqb_neq in Hst. rewrite app_nil_r.
    rewrite add_tag_other by exact Hst. exact IH.
Qed.

(** The dictionary of version 6, read at a non-empty name: the trimmed
    value of the last tag of the object, in document order, whose trimmed
    name is this name; nothing when no tag has this name. *)
Theorem resolve_tags_lookup (obj : Element) (n : string) :
  truthy n = true ->
  resolve_tags obj !! n
  = (fun st => strip (findtext "value" "" st))
      <$> last (List.filter
                  (fun st => String.eqb (strip (findtext "name" "" st)) n)
                  (findall_desc "smarttag" obj)).
Proof. intros Hn. now apply fold_add_tag_lookup. Qed.

Lemma resolve_tags_lookup_witness :
  resolve_tags Samples.obj_A_B !! "Item Type" = Some "Pipe"
  /\ resolve_tags Samples.obj_A_B !! "Network" = None.
Proof.
  split.
  - rewrite (resolve_tags_lookup Samples.obj_A_B "Item Type" eq_refl).
    reflexivity.
  - rewrite (resolve_tags_lookup Samples.obj_A_B "Network" eq_refl).
    reflexivity.
Defined.

(** Every entry of the dictionary of version 6 has a key that is the
    trimmed, non-empty name of a tag of the object, and a trimmed value. *)
Theorem resolve_tags_entries (obj : Element) (k v : string) :
  resolve_tags obj !! k = Some v ->
  truthy k = true
  /\ strip k = k
  /\ strip v = v
  /\ exists st, In st (findall_desc "smarttag" obj)
                /\ k = strip (findtext "name" "" st).
Proof.
  intros Hk. destruct (resolve_tags_names obj k v Hk) as (Ht & st & Hin & Hst).
  split; [exact Ht|]. split; [|split].
  - rewrite Hst. apply strip_idempotent.
  - rewrite (fold_add_tag_lookup k _ Ht : resolve_tags obj !! k = _) in Hk.
    destruct (last _) as [st'|]; [|discriminate]. cbn in Hk.
    inversion Hk. apply strip_idempotent.
  - now exists st.
Qed.

Lemma resolve_tags_entries_witness :
  truthy "Item Name" = true
  /\ strip "Item Name" = "Item Name"
  /\ strip "B" = "B"
  /\ exists st, In st (findall_desc "smarttag" Samples.obj_A_B)
                /\ "Item Name" = strip (findtext "name" "" st).
Proof.
  apply (resolve_tags_entries Samples.obj_A_B "Item Name" "B"). reflexivity.
Defined.

Lemma resolve_tags_v0_values_witness :
  truthy "A" = true /\ truthy "itemName" = true.
Proof.
  apply (resolve_tags_v0_values Samples.obj_A_blank "itemName" "A").
  reflexivity.
Defined.

(** The six names the summary of version 6 reads. *)
Lemma summary_lines_ext (t1 t2 : gmap string string) :
  t1 !! "Item Name" = t2 !! "Item Name" ->
  t1 !! "Civil3D General:Network name" = t2 !! "Civil3D General:Network name" ->
  t1 !! "Civil3D General:Part Size Name"
  = t2 !! "Civil3D General:Part Size Name" ->
  t1 !! "Item Type" = t2 !! "Item Type" ->
  t1 !! "Civil3D General:Inner Diameter or Width"
  = t2 !! "Civil3D General:Inner Diameter or Width" ->
  t1 !! "Civil3D General:Outer Diameter or Width"
  = t2 !! "Civil3D General:Outer Diameter or Width" ->
  summary_lines t1 = summary_lines t2.
Proof.
  intros H1 H2 H3 H4 H5 H6. unfold summary_lines, tag_truthy, tag_or_empty.
  now rewrite H1, H2, H3, H4, H5, H6.
Qed.

(** Tags with other names are ignored: two objects whose tags with
    recognised names are the same, in the same order, have the same
    summary. *)
Theorem get_item_details_recognised_only (o1 o2 : Element) :
  List.filter (fun st => recognised (strip (findtext "name" "" st)))
              (findall_desc "smarttag" o1)
  = List.filter (fun st => recognised (strip (findtext "name" "" st)))
                (findall_desc "smarttag" o2) ->
  get_item_details (Some o1) = get_item_details (Some o2).
Proof.
  intros Hrec. cbn [get_item_details]. f_equal.
  assert (Hkey : forall n, recognised n = true -> truthy n = true ->
                           resolve_tags o1 !! n = resolve_tags o2 !! n).
  { intros n Hn Ht. unfold resolve_tags.
    rewrite !fold_add_tag_lookup by exact Ht. do 2 f_equal.
    assert (Hsub : forall l,
               List.filter
                 (fun st => String.eqb (strip (findtext "name" "" st)) n) l
               = List.filter
                   (fun st => String.eqb (strip (findtext "name" "" st)) n)
                   (List.filter
                      (fun st => recognised (strip (findtext "name" "" st))) l)).
    { induction l as [|st l IH]; [reflexivity|]. cbn [List.filter].
      destruct (String.eqb (strip (findtext "name" "" st)) n) eqn:Hst.
      - apply String.eqb_eq in Hst. rewrite Hst, Hn. cbn [List.filter].
        rewrite <- Hst at 1. rewrite String.eqb_refl. now rewrite IH.
      - destruct (recognised (strip (findtext "name" "" st)));
          [cbn [List.filter]; rewrite Hst|]; exact IH. }
    now rewrite (Hsub (findall_desc "smarttag" o1)),
                (Hsub (findall_desc "smarttag" o2)), Hrec. }
  apply summary_lines_ext; apply Hkey; reflexivity.
Qed.

Lemma get_item_details_recognised_only_witness :
  get_item_details
    (Some (Samples.node "clashobject" []
             [Samples.smarttag "Layer" "L1"; Samples.smarttag "Item Name" "A";
              Samples.smarttag "Colour" "red"]))
  = get_item_details
      (Some (Samples.node "clashobject" [] [Samples.smarttag "Item Name" "A"])).
Proof.
  apply get_item_details_recognised_only. reflexivity.
Defined.

Lemma isspace_P : isspace "P"%char = false.
Proof. reflexivity. Qed.

Lemma summary_lines_nonempty (tags : gmap string string) :
  (length (summary_lines tags) <= 4)%nat
  /\ Forall (fun line => truthy line = true) (summary_lines tags).
Proof.
  unfold summary_lines.
  destruct (tag_truthy tags "Item Name");
    destruct (tag_truthy tags "Civil3D General:Network name");
    destruct (truthy (strip (join " " (List.filter truthy
                [tag_or_empty tags "Civil3D General:Part Size Name";
                 tag_or_empty tags "Item Type"])))) eqn:Htype;
    destruct (truthy (tag_or_empty tags
                        "Civil3D General:Inner Diameter or Width")
              || truthy (tag_or_empty tags
                           "Civil3D General:Outer Diameter or Width"));
    (split; [cbn; lia|]);
    repeat (apply List.Forall_cons || apply List.Forall_nil);
    try reflexivity;
    apply (strip_truthy isspace "P"%char _ isspace_P).
Qed.

Lemma splitlines_first_line (s rest : string) :
  forall (cur : string) (started : bool),
    no_linebreak s = true ->
    splitlines_go cur started false (s ++ String (ascii_of_nat 10) rest)
    = (String.rev cur ++ s) :: splitlines_go "" false false rest.
Proof.
  induction s as [|c r IH]; intros cur started Hs.
  - change (splitlines_go cur started false (String (ascii_of_nat 10) rest)
            = (String.rev cur ++ "") :: splitlines_go "" false false rest).
    now rewrite append_empty_r.
  - cbn [no_linebreak] in Hs. apply andb_true_iff in Hs as [Hc Hr].
    apply negb_true_iff in Hc.
    change (splitlines_go cur started false
              (String c (r ++ String (ascii_of_nat 10) rest))
            = (String.rev cur ++ String c r)
                :: splitlines_go "" false false rest).
    cbn [splitlines_go andb]. rewrite Hc, (IH (String c cur) true Hr).
    now rewrite rev_cons, append_assoc.
Qed.

Lemma splitlines_one_line (s : string) :
  forall (cur : string) (started : bool),
    no_linebreak s = true -> started || truthy s = true ->
    splitlines_go cur started false s = [String.rev cur ++ s].
Proof.
  induction s as [|c r IH]; intros cur started Hs Hne.
  - rewrite orb_false_r in Hne. subst started. cbn [splitlines_go].
    now rewrite append_empty_r.
  - cbn [no_linebreak] in Hs. apply andb_true_iff in Hs as [Hc Hr].
    apply negb_true_iff in Hc. cbn [splitlines_go andb].
    rewrite Hc, (IH (String c cur) true Hr eq_refl).
    now rewrite rev_cons, append_assoc.
Qed.

(** The first line of a summary that begins with a line free of line
    boundaries. *)
Lemma splitlines_join_head (line : string) (rest : list string) :
  no_linebreak line = true -> truthy line = true ->
  head (splitlines (join nl (line :: rest))) = Some line.
Proof.
  intros Hl Ht. unfold splitlines, join. destruct rest as [|l2 rest].
  - cbn [String.concat]. rewrite splitlines_one_line; [reflexivity|exact Hl|].
    now rewrite Ht.
  - change (String.concat nl (line :: l2 :: rest))
      with (line ++ String (ascii_of_nat 10) (String.concat nl (l2 :: rest))).
    now rewrite splitlines_first_line.
Qed.

Lemma no_linebreak_append a b :
  no_linebreak (a ++ b) = no_linebreak a && no_linebreak b.
Proof.
  induction a as [|c r IH]; [reflexivity|].
  change (no_linebreak (String c (r ++ b))
          = no_linebreak (String c r) && no_linebreak b).
  cbn [no_linebreak]. now rewrite IH, andb_assoc.
Qed.

Lemma no_linebreak_rev s : no_linebreak (String.rev s) = no_linebreak s.
Proof.
  induction s as [|c r IH]; [reflexivity|].
  rewrite rev_cons, no_linebreak_append, IH. cbn [no_linebreak].
  rewrite andb_true_r. apply andb_comm.
Qed.

Lemma no_linebreak_lstrip sp s :
  no_linebreak s = true -> no_linebreak (lstrip_by sp s) = true.
Proof.
  induction s as [|c r IH]; [reflexivity|]. intros Hs. cbn [lstrip_by].
  destruct (sp c); [|exact Hs].
  cbn [no_linebreak] in Hs. apply andb_true_iff in Hs as [_ Hr]. now apply IH.
Qed.

(** Trimming brings in no line boundary. *)
Lemma no_linebreak_strip s :
  no_linebreak s = true -> no_linebreak (strip s) = true.
Proof.
  intros Hs. unfold strip, strip_by. rewrite no_linebreak_rev.
  apply no_linebreak_lstrip. rewrite no_linebreak_rev.
  now apply no_linebreak_lstrip.
Qed.

Lemma type_line_plain part itype :
  no_linebreak part = true -> no_linebreak itype = true ->
  no_linebreak (strip (join " " (List.filter truthy [part; itype]))) = true.
Proof.
  intros Hp Hi. apply no_linebreak_strip. cbn [List.filter].
  destruct (truthy part), (truthy itype); cbn [join String.concat];
    try reflexivity; try assumption.
  rewrite !no_linebreak_append, Hp, Hi. reflexivity.
Qed.

Lemma tag_or_empty_plain (tags : gmap string string) k :
  (forall k v, recognised k = true -> tags !! k = Some v ->
               no_linebreak v = true) ->
  recognised k = true ->
  no_linebreak (tag_or_empty tags k) = true.
Proof.
  intros Hplain Hk. unfold tag_or_empty.
  destruct (tags !! k) as [v|] eqn:Hv; [|reflexivity].
  exact (Hplain k v Hk Hv).
Qed.

(** Values without line boundaries give lines without line boundaries. *)
Lemma summary_lines_plain (tags : gmap string string) :
  (forall k v, recognised k = true -> tags !! k = Some v ->
               no_linebreak v = true) ->
  Forall (fun line => no_linebreak line = true) (summary_lines tags).
Proof.
  intros Hplain.
  pose proof (tag_or_empty_plain tags "Item Name" Hplain eq_refl) as H1.
  pose proof (tag_or_empty_plain tags "Civil3D General:Network name"
                Hplain eq_refl) as H2.
  pose proof (tag_or_empty_plain tags "Civil3D General:Part Size Name"
                Hplain eq_refl) as H3.
  pose proof (tag_or_empty_plain tags "Item Type" Hplain eq_refl) as H4.
  pose proof (tag_or_empty_plain tags
                "Civil3D General:Inner Diameter or Width" Hplain eq_refl)
    as H5.
  pose proof (tag_or_empty_plain tags
                "Civil3D General:Outer Diameter or Width" Hplain eq_refl)
    as H6.
  unfold summary_lines.
  repeat apply Forall_app_2.
  - destruct (tag_truthy tags "Item Name"); [|constructor].
    repeat constructor. now rewrite no_linebreak_append, H1.
  - destruct (tag_truthy tags "Civil3D General:Network name"); [|constructor].
    repeat constructor. now rewrite no_linebreak_append, H2.
  - destruct (truthy _); [|constructor].
    repeat constructor. rewrite no_linebreak_append.
    now rewrite (type_line_plain _ _ H3 H4).
  - destruct (_ || _); [|constructor].
    repeat constructor. apply no_linebreak_strip.
    now rewrite !no_linebreak_append, H5, H6.
Qed.

(** Non-empty lines without line boundaries, joined by newlines, split
    back into themselves. *)
Lemma splitlines_join (lines : list string) :
  Forall (fun line => no_linebreak line = true) lines ->
  Forall (fun line => truthy line = true) lines ->
  splitlines (join nl lines) = lines.
Proof.
  induction lines as [|line rest IH]; intros Hplain Hne; [reflexivity|].
  inversion Hplain as [|? ? Hl Hrest]; inversion Hne as [|? ? Ht Hnrest];
    subst.
  destruct rest as [|l2 rest].
  - unfold splitlines, join. cbn [String.concat].
    rewrite splitlines_one_line; [reflexivity | exact Hl |].
    now rewrite Ht.
  - unfold splitlines, join.
    change (String.concat nl (line :: l2 :: rest))
      with (line ++ String (ascii_of_nat 10) (String.concat nl (l2 :: rest))).
    rewrite splitlines_first_line by exact Hl.
    change (line :: splitlines (join nl (l2 :: rest)) = line :: l2 :: rest).
    now rewrite (IH Hrest Hnrest).
Qed.

(** The summary text of a clash object, as [get_item_details] returns
    it, splits into at most four lines, none of them empty, and is these
    lines joined by newlines, when no value under a recognised name
    contains a line boundary. *)
Theorem summary_lines_shape (obj : Element) :
  (forall k v, recognised k = true -> resolve_tags obj !! k = Some v ->
               no_linebreak v = true) ->
  let lines := splitlines (get_item_details (Some obj)) in
  (length lines <= 4)%nat
  /\ Forall (fun line => truthy line = true) lines
  /\ get_item_details (Some obj) = join nl lines.
Proof.
  intros Hplain. cbn zeta. cbn [get_item_details].
  destruct (summary_lines_nonempty (resolve_tags obj)) as [Hlen Hne].
  rewrite (splitlines_join _ (summary_lines_plain _ Hplain) Hne).
  repeat split; [exact Hlen | exact Hne].
Qed.

(** The first sample object: two lines, [Item Name: B] and
    [Item Type: Pipe]. *)
Lemma summary_lines_shape_witness :
  splitlines (get_item_details (Some Samples.obj_A_B))
  = ["Item Name: B"; "Item Type: Pipe"]
  /\ Forall (fun line => truthy line = true)
            (splitlines (get_item_details (Some Samples.obj_A_B))).
Proof.
  destruct (summary_lines_shape Samples.obj_A_B) as (_ & Hne & _).
  - intros k v Hk Hv. unfold recognised in Hk. cbn [existsb] in Hk.
    repeat (apply orb_true_iff in Hk as [Hk|Hk]); try discriminate Hk;
      apply String.eqb_eq in Hk; subst k; vm_compute in Hv;
      try discriminate Hv; injection Hv as <-; reflexivity.
  - split; [reflexivity | exact Hne].
Defined.

(** Values of the dictionary are trimmed. *)
Lemma resolve_tags_value_trimmed (obj : Element) (n v : string) :
  resolve_tags obj !! n = Some v -> strip v = v.
Proof.
  intros Hv. destruct (resolve_tags_names obj n v Hv) as (Hn & _).
  rewrite (fold_add_tag_lookup n _ Hn : resolve_tags obj !! n = _) in Hv.
  destruct (last _) as [st|]; [|discriminate]. cbn in Hv.
  inversion Hv. apply strip_idempotent.
Qed.

(** A dictionary with an item name gives a summary that starts with it. *)
Lemma summary_lines_head (tags : gmap string string) (v : string) :
  tags !! "Item Name" = Some v -> truthy v = true ->
  exists rest, summary_lines tags = ("Item Name: " ++ v) :: rest.
Proof.
  intros Hv Ht. unfold summary_lines, tag_truthy, tag_or_empty.
  rewrite Hv. cbn [otruthy default]. rewrite Ht. eexists. reflexivity.
Qed.

(** The short name used in the line [Between: ... and ...] is the item
    name of the object, when that name has no line boundary in it and does
    not contain the text [Item Name:]. *)
Theorem short_name_of_details (obj : Element) (v : string) :
  resolve_tags obj !! "Item Name" = Some v ->
  truthy v = true ->
  no_linebreak v = true ->
  replace "Item Name:" "" v = v ->
  get_item_name_short (get_item_details (Some obj)) = v.
Proof.
  intros Hv Ht Hnl Hrep. pose proof (resolve_tags_value_trimmed _ _ _ Hv) as Hs.
  cbn [get_item_details].
  destruct (summary_lines_head _ _ Hv Ht) as [rest ->].
  unfold get_item_name_short.
  pose proof (splitlines_join_head ("Item Name: " ++ v) rest Hnl eq_refl)
    as Hhead.
  destruct (splitlines (join nl (("Item Name: " ++ v) :: rest)))
    as [|l0 ls]; [discriminate|].
  cbn in Hhead. inversion Hhead; subst l0.
  cbn [List.find].
  change (String.prefix "Item Name:" ("Item Name: " ++ v)) with true.
  cbn iota.
  change (replace "Item Name:" "" ("Item Name: " ++ v))
    with (String " " (replace "Item Name:" "" v)).
  rewrite Hrep.
  change (strip (String " " v)) with (strip v). exact Hs.
Qed.

Lemma short_name_of_details_witness :
  get_item_name_short (get_item_details (Some Samples.obj_A_B)) = "B".
Proof.
  apply short_name_of_details; reflexivity.
Defined.

End ItemsMore.

(** ** Whole runs of the exporters *)

Module ExportMore.
Import Py ET ETFacts Coord Notions.

Lemma point_xyz_readable clash :
  axes_readable clash = true -> exists xyz, Excel.point_xyz clash = inr xyz.
Proof.
  unfold axes_readable, Excel.point_xyz.
  destruct (find_desc "pos3f" clash) as [pos|]; [|now eexists].
  destruct (axis pos "x"), (axis pos "y"), (axis pos "z");
    try discriminate. now eexists.
Qed.





(** In a list whose items either complete or raise, the first item that
    raises is determined. *)
Section FirstRaise.
Variables (A E : Type) (done : A -> Prop) (raises : A -> E -> Prop).
Hypothesis done_not_raises : forall a e, done a -> raises a e -> False.
Hypothesis raises_one : forall a e e', raises a e -> raises a e' -> e = e'.


Lemma all_done_no_raise (l b a : list A) c e :
  Forall done l -> l = (b ++ c :: a)%list -> raises c e -> False.
Proof.
  intros Hall -> Hc. apply Forall_app in Hall as [_ Hall].
  inversion Hall as [|? ? Hd ?]. exact (done_not_raises _ _ Hd Hc).
Qed.

End FirstRaise.

Section WithEnv.
Context `{Env}.

Lemma point_rows_from_readable root xml_path clashes :
  forall i,
    forallb axes_readable (map node_elt clashes) = true ->
    exists pts,
      Excel.point_rows_from root i clashes = inr pts
      /\ map Excel.pt_id pts = seq i (length clashes)
      /\ map Excel.pt_name pts
         = map Excel.row_name (Excel.report_rows_from root xml_path i clashes).
Proof.
  induction clashes as [|c r IH]; intros i Hall; [now exists []|].
  cbn [map forallb] in Hall. apply andb_true_iff in Hall as [Hc Hr].
  destruct (point_xyz_readable _ Hc) as [xyz Hxyz].
  destruct (IH (S i) Hr) as (pts & Hpts & Hids & Hnames).
  cbn [Excel.point_rows_from Excel.report_rows_from]. unfold Excel.point_row.
  rewrite Hxyz, Hpts. eexists. split; [reflexivity|].
  cbn [map Excel.pt_id Excel.pt_name length seq]. split.
  - now rewrite Hids.
  - rewrite Hnames. reflexivity.
Qed.


Lemma completes_not_raises {A} (r : exn + A) e :
  completes r -> r = inl e -> False.
Proof. intros [a ->]. discriminate. Qed.

Lemma excel_all_done_no_raise xml_path (l b a : list Element) c e :
  Forall (fun c => completes (excel_picture xml_path c)) l ->
  l = (b ++ c :: a)%list ->
  excel_picture xml_path c = inl e ->
  False.
Proof.
  apply (all_done_no_raise _ _
           (fun c => completes (excel_picture xml_path c))
           (fun c e => excel_picture xml_path c = inl e)).
  intros a0 e0. apply completes_not_raises.
Qed.

(** The report loop stops at the first clash whose picture column
    raises. *)
Lemma report_failure_spec root xml_path clashes :
  forall i,
    match Excel.report_failure
            (Excel.report_rows_from root xml_path i clashes) with
    | Some e =>
        exists before clash after,
          map node_elt clashes = (before ++ clash :: after)%list
          /\ Forall (fun c => completes (excel_picture xml_path c)) before
          /\ excel_picture xml_path clash = inl e
    | None =>
        Forall (fun c => completes (excel_picture xml_path c))
               (map node_elt clashes)
    end.
Proof.
  induction clashes as [|c r IH]; intros i; [constructor|].
  cbn [Excel.report_rows_from Excel.report_failure map].
  change (Excel.row_picture (Excel.report_row root xml_path i (node_elt c)))
    with (excel_picture xml_path (node_elt c)).
  destruct (excel_picture xml_path (node_elt c)) as [e|cell] eqn:Hc.
  - exists [], (node_elt c), (map node_elt r).
    repeat split; [constructor | exact Hc].
  - specialize (IH (S i)).
    destruct (Excel.report_failure
                (Excel.report_rows_from root xml_path (S i) r)) as [e|].
    + destruct IH as (before & clash & after & Heq & Hb & He).
      exists (node_elt c :: before), clash, after. rewrite Heq.
      repeat split; [|exact He]. constructor; [now exists cell | exact Hb].
    + constructor; [now exists cell | exact IH].
Qed.

Lemma report_failure_none root xml_path :
  Forall (fun c => completes (excel_picture xml_path c))
         (findall_desc "clashresult" root) ->
  Excel.report_failure (Excel.report_rows root xml_path) = None.
Proof.
  intros Hall. unfold Excel.report_rows.
  pose proof (report_failure_spec root xml_path (Excel.clashes_of root) 1)
    as Hspec.
  destruct (Excel.report_failure _) as [e|]; [|reflexivity].
  destruct Hspec as (before & clash & after & Heq & _ & He).
  rewrite ExcelFacts.clashes_of_elts in Heq.
  destruct (excel_all_done_no_raise _ _ _ _ _ _ Hall Heq He).
Qed.


(** When the source file exists and parses, no picture column raises,
    every position has three readable axes and [wb.save] succeeds, the
    Excel export saves a workbook under the requested name: its report
    sheet holds the rows of the builder, and its Clash_Points sheet has
    one row per report row, with the same number and the same clash
    name.  What it prints ends with the [Saved:] line. *)
Theorem export_to_excel_saves (xml_file output_file : string) (root : Element) :
  path_exists (mkPath xml_file) = inr true ->
  et_parse (mkPath xml_file) = inr root ->
  Forall (fun c => completes (excel_picture (mkPath xml_file) c))
         (findall_desc "clashresult" root) ->
  forallb axes_readable (findall_desc "clashresult" root) = true ->
  wb_save output_file = None ->
  exists pts,
    Excel.export_to_excel xml_file output_file
    = Returned
        (Excel.report_printed (Excel.report_rows root (mkPath xml_file))
           ++ [("Saved: " ++ output_file)%string])%list
        (Some (output_file,
               Excel.MkWorkbook
                 (Excel.report_rows root (mkPath xml_file)) pts))
    /\ map Excel.pt_id pts
       = map Excel.row_index (Excel.report_rows root (mkPath xml_file))
    /\ map Excel.pt_name pts
       = map Excel.row_name (Excel.report_rows root (mkPath xml_file)).
Proof.
  intros Hex Hparse Hpics Hall Hsave.
  rewrite <- ExcelFacts.clashes_of_elts in Hall.
  destruct (point_rows_from_readable root (mkPath xml_file) _ 1 Hall)
    as (pts & Hpts & Hids & Hnames).
  exists pts. unfold Excel.export_to_excel, Excel.point_rows.
  rewrite Hex, Hparse, (report_failure_none _ _ Hpics), Hpts, Hsave.
  split; [reflexivity|].
  unfold Excel.report_rows.
  now rewrite ExcelFacts.report_rows_from_index.
Qed.







(** The builder never fails for want of clash objects: with fewer than two
    objects under the clash the second item text is empty and its short
    name is ["Unknown"]; with none, the first item text is empty too. *)
Theorem report_row_missing_objects (root : Element) (xml_path : Path)
        (i : nat) (clash : Element) :
  (length (findall_desc "clashobject" clash) < 2)%nat ->
  let row := Excel.report_row root xml_path i clash in
  Excel.row_item2 row = ""
  /\ Excel.row_item2_name row = "Unknown"
  /\ (findall_desc "clashobject" clash = [] -> Excel.row_item1 row = "").
Proof.
  intros Hlen. cbn zeta. unfold Excel.report_row.
  cbn [Excel.row_item1 Excel.row_item2 Excel.row_item2_name].
  destruct (findall_desc "clashobject" clash) as [|o1 [|o2 rest]].
  - repeat split.
  - repeat split. discriminate.
  - cbn in Hlen. lia.
Qed.

End WithEnv.

(** The coordinate text of the report sheet is empty exactly when the
    clash has no position or one of the axes is not a number. *)
Theorem excel_coords_text_empty_iff (clash : Element) :
  Excel.coords_text clash = ""
  <-> find_desc "pos3f" clash = None \/ axes_readable clash = false.
Proof.
  unfold Excel.coords_text, Excel.coords_of_pos, axes_readable.
  destruct (find_desc "pos3f" clash) as [pos|]; [|split; auto].
  destruct (axis pos "x") as [fx|], (axis pos "y") as [fy|],
           (axis pos "z") as [fz|]; cbn;
    try (split; [intros _; now right | reflexivity]).
  split; [|intros [|]; discriminate].
  intros Hempty. exfalso.
  assert (Ht : truthy (PyFloat.format_3f fx ++ "m," ++ nl
                       ++ PyFloat.format_3f fy ++ "m," ++ nl
                       ++ PyFloat.format_3f fz ++ "m") = true)
    by (apply StripFacts.truthy_append_r; reflexivity).
  rewrite Hempty in Ht. discriminate.
Qed.

(** The sample report is saved: its one picture is found and resized,
    and every position in it is readable. *)
Lemma export_to_excel_saves_witness :
  exists pts,
    @Excel.export_to_excel Samples.world_proj "/proj/report.xml" "out.xlsx"
    = Returned ["Saved: out.xlsx"]
        (Some ("out.xlsx",
               @Excel.MkWorkbook Samples.world_proj
                 (@Excel.report_rows Samples.world_proj Samples.doc_report
                    "/proj/report.xml") pts))
    /\ map Excel.pt_id pts = [1; 2; 3]%nat.
Proof.
  assert (Hpics : Forall
                    (fun c => completes
                                (@excel_picture Samples.world_proj
                                   "/proj/report.xml" c))
                    (findall_desc "clashresult" Samples.doc_report)).
  { repeat constructor; eexists; vm_compute; reflexivity. }
  destruct (@export_to_excel_saves Samples.world_proj
              "/proj/report.xml" "out.xlsx" Samples.doc_report
              eq_refl eq_refl Hpics eq_refl eq_refl)
    as (pts & Hrun & Hids & _).
  exists pts. split; [exact Hrun | exact Hids].
Defined.



(** The third result of the sample report has no clash object. *)
Lemma report_row_missing_objects_witness :
  @Excel.row_item2_name Samples.world_proj
    (@Excel.report_row Samples.world_proj Samples.doc_report
       "/proj/report.xml" 3
       (Samples.node "clashresult" [("guid", "g3")] []))
  = "Unknown".
Proof.
  destruct (@report_row_missing_objects Samples.world_proj Samples.doc_report
              "/proj/report.xml" 3
              (Samples.node "clashresult" [("guid", "g3")] []))
    as (_ & Hname & _).
  - cbn. lia.
  - exact Hname.
Defined.

End ExportMore.

(** ** Positions in the tree *)

Module LocFacts.
Import Py ET ETFacts Notions.
Local Open Scope list_scope.

Lemma subtree_at_app (p q : loc) : forall e t,
  subtree_at p e = Some t -> subtree_at (p ++ q) e = subtree_at q t.
Proof.
  induction p as [|i p IH]; intros e t Hp; cbn in Hp |- *.
  - now inversion Hp.
  - destruct (children e !! i) as [c|]; [|discriminate]. now apply IH.
Qed.

Lemma subtree_at_app_inv (p q : loc) : forall e t x,
  subtree_at p e = Some t -> subtree_at (p ++ q) e = Some x ->
  subtree_at q t = Some x.
Proof. intros e t x Hp Hpq. now rewrite (subtree_at_app p q e t Hp) in Hpq. Qed.

Lemma is_proper_prefix_spec (p q : loc) :
  is_proper_prefix p q = true <-> exists r, r <> [] /\ q = (p ++ r)%list.
Proof.
  revert q. induction p as [|x p IH]; intros [|y q]; cbn [is_proper_prefix].
  - split; [discriminate|]. intros (r & Hr & Heq). cbn in Heq. congruence.
  - split; [|reflexivity]. intros _. exists (y :: q). split; [discriminate|].
    reflexivity.
  - split; [discriminate|]. intros (r & _ & Heq). discriminate.
  - rewrite andb_true_iff, IH, Nat.eqb_eq. split.
    + intros (-> & r & Hr & ->). now exists r.
    + intros (r & Hr & Heq). cbn in Heq. inversion Heq; subst.
      split; [reflexivity|]. now exists r.
Qed.

(** The nodes listed for the children [cs] of the node at [p], starting
    with child number [i]. *)
Lemma iter_at_children_spec (p : loc) (cs : list Element) :
  Forall (fun c => forall q n,
            In n (iter_at q c)
            <-> exists path, node_loc n = (q ++ path)%list
                             /\ subtree_at path c = Some (node_elt n)) cs ->
  forall i n,
    In n ((fix go (i : nat) (l : list Element) : list Node :=
             match l with
             | [] => []
             | c :: r => (iter_at (p ++ [i]) c ++ go (S i) r)%list
             end) i cs)
    <-> exists j c path,
          cs !! j = Some c
          /\ node_loc n = (p ++ (i + j)%nat :: path)%list
          /\ subtree_at path c = Some (node_elt n).
Proof.
  induction 1 as [|c r Hc _ IHr]; intros i n.
  - split; [intros [] | intros (j & c & path & Hj & _)]. discriminate.
  - rewrite in_app_iff, Hc, IHr. split.
    + intros [(path & Hloc & Hsub) | (j & c' & path & Hj & Hloc & Hsub)].
      * exists 0%nat, c, path. split; [reflexivity|]. split; [|exact Hsub].
        rewrite Hloc, Nat.add_0_r, <- app_assoc. reflexivity.
      * exists (S j), c', path. split; [exact Hj|]. split; [|exact Hsub].
        rewrite Hloc. do 2 f_equal. lia.
    + intros (j & c' & path & Hj & Hloc & Hsub). destruct j as [|j].
      * left. cbn in Hj. inversion Hj; subst c'. exists path.
        split; [|exact Hsub]. rewrite Hloc, Nat.add_0_r, <- app_assoc.
        reflexivity.
      * right. exists j, c', path. split; [exact Hj|]. split; [|exact Hsub].
        rewrite Hloc. do 2 f_equal. lia.
Qed.

(** The nodes listed below and including the node at [p]: exactly the
    subtrees of [e], each at its position. *)
Lemma iter_at_spec (e : Element) : forall p n,
  In n (iter_at p e)
  <-> exists path, node_loc n = (p ++ path)%list
                   /\ subtree_at path e = Some (node_elt n).
Proof.
  induction e as [tg a x cs IH] using Element_forall_ind; intros p n.
  cbn [iter_at In]. rewrite (iter_at_children_spec p cs IH 0 n). split.
  - intros [<- | (j & c & path & Hj & Hloc & Hsub)].
    + exists []. cbn. now rewrite app_nil_r.
    + exists (j :: path). split; [exact Hloc|]. cbn. now rewrite Hj.
  - intros ([|j path] & Hloc & Hsub).
    + left. destruct n as [l t]. cbn in Hloc, Hsub.
      rewrite app_nil_r in Hloc. now inversion Hsub; subst.
    + right. cbn in Hsub. destruct (cs !! j) as [c|] eqn:Hj; [|discriminate].
      now exists j, c, path.
Qed.

(** The proper descendants of a node: the subtrees at non-empty paths. *)
Lemma descendants_at_spec (m n : Node) :
  In n (descendants_at m)
  <-> exists path, path <> []
                   /\ node_loc n = (node_loc m ++ path)%list
                   /\ subtree_at path (node_elt m) = Some (node_elt n).
Proof.
  unfold descendants_at. destruct m as [p e]. cbn [node_loc node_elt].
  destruct e as [tg a x cs]. cbn [iter_at List.tail].
  assert (IH : Forall (fun c => forall q n,
            In n (iter_at q c)
            <-> exists path, node_loc n = (q ++ path)%list
                             /\ subtree_at path c = Some (node_elt n)) cs).
  { apply List.Forall_forall. intros c _ q n0. apply iter_at_spec. }
  rewrite (iter_at_children_spec p cs IH 0 n). split.
  - intros (j & c & path & Hj & Hloc & Hsub). exists (j :: path).
    split; [discriminate|]. split; [exact Hloc|]. cbn. now rewrite Hj.
  - intros ([|j path] & Hne & Hloc & Hsub); [congruence|].
    cbn in Hsub. destruct (cs !! j) as [c|] eqn:Hj; [|discriminate].
    now exists j, c, path.
Qed.

End LocFacts.

(** ** The two group lookups of the Excel export *)

Module GroupSheets.
Import Py ET ETFacts Notions LocFacts Group GroupFacts.
Local Open Scope list_scope.

Lemma in_findall_desc_at t m n :
  In n (findall_desc_at t m)
  <-> In n (descendants_at m) /\ has_tag t (node_elt n) = true.
Proof. unfold findall_desc_at. apply filter_In. Qed.

Lemma node_in_spec c l :
  node_in c l = true <-> exists m, In m l /\ node_loc m = node_loc c.
Proof.
  unfold node_in, loc_eqb. rewrite existsb_exists.
  split; intros (m & Hm & Heq); exists m; (split; [exact Hm|]).
  - now apply bool_decide_eq_true in Heq.
  - now apply bool_decide_eq_true.
Qed.

(** A node found below the root sits at its own position in the root. *)
Lemma below_root root n :
  In n (descendants_at (MkNode [] root)) ->
  subtree_at (node_loc n) root = Some (node_elt n).
Proof.
  intros Hn. apply descendants_at_spec in Hn as (path & _ & Hloc & Hsub).
  cbn in Hloc, Hsub. now rewrite Hloc.
Qed.

Lemma node_eta (n : Node) : MkNode (node_loc n) (node_elt n) = n.
Proof. now destruct n. Qed.

(** Identity-based membership among the results of a test is being a
    proper descendant of the test. *)
Lemma node_in_results_spec root T c :
  subtree_at (node_loc T) root = Some (node_elt T) ->
  subtree_at (node_loc c) root = Some (node_elt c) ->
  has_tag "clashresult" (node_elt c) = true ->
  node_in c (findall_desc_at "clashresult" T)
  = is_proper_prefix (node_loc T) (node_loc c).
Proof.
  intros HT Hc Htag. apply Bool.eq_iff_eq_true.
  rewrite node_in_spec, is_proper_prefix_spec. split.
  - intros (m & Hm & Heq). apply in_findall_desc_at in Hm as [Hm _].
    apply descendants_at_spec in Hm as (path & Hne & Hloc & _).
    exists path. split; [exact Hne|]. now rewrite <- Heq.
  - intros (path & Hne & Hloc). exists c. split; [|reflexivity].
    apply in_findall_desc_at. split; [|exact Htag].
    apply descendants_at_spec. exists path. split; [exact Hne|].
    split; [exact Hloc|]. rewrite Hloc in Hc.
    now apply (subtree_at_app_inv _ _ _ _ _ HT Hc).
Qed.

Lemma scan_tests_containing_spec root c tests :
  subtree_at (node_loc c) root = Some (node_elt c) ->
  has_tag "clashresult" (node_elt c) = true ->
  Forall (fun T => subtree_at (node_loc T) root = Some (node_elt T)) tests ->
  scan_tests_containing c tests
  = default unknown_group
      (head (map (fun T => get_or (node_elt T) "name" unknown_group)
                 (List.filter
                    (fun T => is_proper_prefix (node_loc T) (node_loc c))
                    tests))).
Proof.
  intros Hc Htag Hall. induction Hall as [|T l HT _ IH]; [reflexivity|].
  cbn [scan_tests_containing List.filter].
  rewrite (node_in_results_spec root T c HT Hc Htag).
  destruct (is_proper_prefix (node_loc T) (node_loc c)); [reflexivity|].
  exact IH.
Qed.

Lemma tests_below_root root :
  Forall (fun T => subtree_at (node_loc T) root = Some (node_elt T))
         (findall_desc_at "clashtest" (MkNode [] root)).
Proof.
  apply List.Forall_forall. intros T HT.
  apply in_findall_desc_at in HT as [HT _]. now apply below_root.
Qed.

Lemma group_by_containment_spec_aux (root : Element) (c : Node) :
  In c (Excel.clashes_of root) ->
  group_by_containment root c
  = default unknown_group
      (head (map (fun T => get_or (node_elt T) "name" unknown_group)
                 (List.filter
                    (fun T => is_proper_prefix (node_loc T) (node_loc c))
                    (findall_desc_at "clashtest" (MkNode [] root))))).
Proof.
  intros Hc. apply in_findall_desc_at in Hc as [Hc Htag].
  unfold group_by_containment.
  apply (scan_tests_containing_spec root c _ (below_root _ _ Hc) Htag).
  apply tests_below_root.
Qed.

(** On the Clash_Points sheet a clash gets the name of the first test, in
    document order, that is a proper ancestor of it (the fallback label if
    that test has no name, or if no test encloses the clash). *)
Theorem group_by_containment_characterised (root : Element) (c : Node) :
  In c (Excel.clashes_of root) ->
  group_by_containment root c
  = default "Unknown Group"
      (head (map (fun T => get_or (node_elt T) "name" "Unknown Group")
                 (List.filter
                    (fun T => is_proper_prefix (node_loc T) (node_loc c))
                    (findall_desc_at "clashtest" (MkNode [] root))))).
Proof.
  intros Hc. apply in_findall_desc_at in Hc as [Hc Htag].
  unfold group_by_containment.
  apply (scan_tests_containing_spec root c _ (below_root _ _ Hc) Htag).
  apply tests_below_root.
Qed.

Lemma group_by_containment_characterised_witness :
  group_by_containment Samples.doc_report
    (MkNode [0; 0; 1; 0]%nat (Samples.node "clashresult" [("guid", "g3")] []))
  = "Walls".
Proof.
  rewrite group_by_containment_characterised; [reflexivity|].
  vm_compute. right. right. left. reflexivity.
Defined.

(** A result found below a test that sits in the root is found below the
    root. *)
Lemma results_of_test_below_root root T m :
  subtree_at (node_loc T) root = Some (node_elt T) ->
  In m (findall_desc_at "clashresult" T) ->
  In m (Excel.clashes_of root).
Proof.
  intros HT Hm. apply in_findall_desc_at in Hm as [Hm Htag].
  apply descendants_at_spec in Hm as (path & Hne & Hloc & Hsub).
  apply in_findall_desc_at. split; [|exact Htag].
  apply descendants_at_spec. exists (node_loc m). cbn [node_loc node_elt].
  split; [|split; [reflexivity|]].
  - rewrite Hloc. destruct (node_loc T), path; cbn; congruence.
  - rewrite Hloc, (subtree_at_app _ path _ _ HT). exact Hsub.
Qed.

(** When the guid of a clash is carried by no other result, the tests that
    hold this guid are the tests that enclose the clash. *)
Lemma contains_guid_encloses root T c g :
  subtree_at (node_loc T) root = Some (node_elt T) ->
  In c (Excel.clashes_of root) ->
  get (node_elt c) "guid" = Some g ->
  (forall c', In c' (Excel.clashes_of root) ->
              get (node_elt c') "guid" = Some g ->
              node_loc c' = node_loc c) ->
  contains_guid g (node_elt T) = is_proper_prefix (node_loc T) (node_loc c).
Proof.
  intros HT Hc Hguid Huniq. apply Bool.eq_iff_eq_true.
  unfold contains_guid. rewrite existsb_exists, <- findall_desc_at_elts.
  split.
  - intros (cr & Hcr & Hg). apply bool_decide_eq_true in Hg.
    apply in_map_iff in Hcr as (m & <- & Hm).
    pose proof (results_of_test_below_root root T m HT Hm) as Hroot.
    rewrite <- (Huniq m Hroot Hg).
    apply in_findall_desc_at in Hm as [Hm _].
    apply descendants_at_spec in Hm as (path & Hne & Hloc & _).
    apply is_proper_prefix_spec. now exists path.
  - intros Hpre. exists (node_elt c). split.
    + apply in_map_iff. exists c. split; [reflexivity|].
      apply in_findall_desc_at in Hc as [Hc Htag].
      pose proof (node_in_results_spec root T c HT (below_root _ _ Hc) Htag)
        as Hin.
      rewrite Hpre in Hin. apply node_in_spec in Hin as (m & Hm & Heq).
      assert (Hmc : m = c).
      { pose proof (results_of_test_below_root root T m HT Hm) as Hroot.
        apply in_findall_desc_at in Hroot as [Hroot _].
        pose proof (below_root _ _ Hroot) as Hsm.
        pose proof (below_root _ _ Hc) as Hsc.
        rewrite Heq, Hsc in Hsm. inversion Hsm as [Helt].
        rewrite <- (node_eta m), <- (node_eta c). now rewrite Heq, Helt. }
      now rewrite <- Hmc.
    + now apply bool_decide_eq_true.
Qed.

(** The two sheets of a workbook name the same group for a clash whose
    guid is carried by no other result, in a document where every test has
    a name other than the fallback label. *)
Theorem group_lookups_agree (root : Element) (c : Node) (g : string) :
  In c (Excel.clashes_of root) ->
  get (node_elt c) "guid" = Some g -> truthy g = true ->
  (forall c', In c' (Excel.clashes_of root) ->
              get (node_elt c') "guid" = Some g ->
              node_loc c' = node_loc c) ->
  Forall (fun t => get_or t "name" "Unknown Group" <> "Unknown Group")
         (findall_desc "clashtest" root) ->
  group_by_guid root (node_elt c) = group_by_containment root c.
Proof.
  intros Hc Hguid Hg Huniq Hnamed.
  rewrite (group_by_containment_spec_aux root c Hc).
  unfold group_by_guid. rewrite Hguid, scan_tests_spec by exact Hg.
  change root with (node_elt (MkNode [] root)) in Hnamed at 1.
  change (findall_desc "clashtest" root)
    with (findall_desc "clashtest" (node_elt (MkNode [] root))).
  rewrite <- findall_desc_at_elts in Hnamed |- *.
  pose proof (tests_below_root root) as Hbelow.
  induction (findall_desc_at "clashtest" (MkNode [] root)) as [|T l IH];
    [reflexivity|].
  inversion Hbelow as [|? ? HT Hl]; subst.
  cbn [map] in Hnamed. inversion Hnamed as [|? ? HnT Hnl]; subst.
  cbn [map List.filter].
  rewrite (contains_guid_encloses root T c g HT Hc Hguid Huniq).
  destruct (is_proper_prefix (node_loc T) (node_loc c)).
  - cbn [map List.filter]. apply String.eqb_neq in HnT.
    unfold unknown_group. now rewrite HnT.
  - now apply IH.
Qed.

Lemma group_lookups_agree_witness :
  group_by_guid Samples.doc_report
                (Samples.node "clashresult" [("guid", "g3")] [])
  = group_by_containment Samples.doc_report
      (MkNode [0; 0; 1; 0]%nat
              (Samples.node "clashresult" [("guid", "g3")] [])).
Proof.
  apply (group_lookups_agree Samples.doc_report
           (MkNode [0; 0; 1; 0]%nat
                   (Samples.node "clashresult" [("guid", "g3")] [])) "g3").
  - vm_compute. right. right. left. reflexivity.
  - reflexivity.
  - reflexivity.
  - intros c' Hc' Hg. vm_compute in Hc'.
    destruct Hc' as [<- | [<- | [<- | []]]]; [discriminate Hg .. | reflexivity].
  - vm_compute. repeat constructor; discriminate.
Defined.

End GroupSheets.

(** ** More on the field scanner *)

Module DiscoverMore.
Import Py ET Discover DiscoverFacts.

(** Two documents with the same element paths and the same attribute
    paths are scanned alike. *)
Lemma discover_root_ext (r1 r2 : Element) :
  (forall p, element_path "" r1 p <-> element_path "" r2 p) ->
  (forall q, attribute_path "" r1 q <-> attribute_path "" r2 q) ->
  discover_root r1 = discover_root r2.
Proof.
  intros He Ha. unfold discover_root.
  destruct (walk_spec r1 "" (∅, ∅)) as [He1 Ha1].
  destruct (walk_spec r2 "" (∅, ∅)) as [He2 Ha2].
  cbn [fst snd] in He1, Ha1, He2, Ha2.
  assert (H1 : fst (walk r1 "" (∅, ∅)) = fst (walk r2 "" (∅, ∅))).
  { apply set_eq. intros p. rewrite He1, He2, He. reflexivity. }
  assert (H2 : snd (walk r1 "" (∅, ∅)) = snd (walk r2 "" (∅, ∅))).
  { apply set_eq. intros q. rewrite Ha1, Ha2, Ha. reflexivity. }
  now rewrite H1, H2.
Qed.

(** The result of the scanner does not depend on the order of the children
    of the root, nor on how often a child is repeated: only on which
    subtrees occur among them. *)
Theorem discover_root_children_as_set
        (t : string) (a : list (string * string)) (x : option string)
        (cs cs' : list Element) :
  (forall c, In c cs <-> In c cs') ->
  discover_root (Elem t a x cs) = discover_root (Elem t a x cs').
Proof.
  intros Hsame.
  assert (Hlen : (0 <? List.length cs)%nat = (0 <? List.length cs')%nat).
  { destruct cs as [|c r], cs' as [|c' r']; try reflexivity.
    - destruct (proj2 (Hsame c')). now left.
    - destruct (proj1 (Hsame c)). now left. }
  assert (Hflat : forall pn,
             In pn (flat_map (nodes_with_path t) cs)
             <-> In pn (flat_map (nodes_with_path t) cs')).
  { intros pn. rewrite !in_flat_map. split; intros (c & Hc & Hpn);
      exists c; (split; [now apply Hsame | exact Hpn]). }
  apply discover_root_ext.
  - intros p. unfold element_path. cbn [nodes_with_path truthy In]. split.
    + intros (n & [Heq | Hn] & Hc).
      * injection Heq as Hp Hn; subst p n. exists (Elem t a x cs').
        split; [now left|]. unfold has_content in Hc |- *.
        cbn [text children] in Hc |- *. now rewrite <- Hlen.
      * exists n. split; [right; now apply Hflat | exact Hc].
    + intros (n & [Heq | Hn] & Hc).
      * injection Heq as Hp Hn; subst p n. exists (Elem t a x cs).
        split; [now left|]. unfold has_content in Hc |- *.
        cbn [text children] in Hc |- *. now rewrite Hlen.
      * exists n. split; [right; now apply Hflat | exact Hc].
  - intros q. unfold attribute_path. cbn [nodes_with_path truthy In]. split.
    + intros (p & n & k & [Heq | Hn] & Hk & ->).
      * injection Heq as Hp Hn; subst p n. exists t, (Elem t a x cs'), k.
        split; [now left | now split].
      * exists p, n, k. split; [right; now apply Hflat | now split].
    + intros (p & n & k & [Heq | Hn] & Hk & ->).
      * injection Heq as Hp Hn; subst p n. exists t, (Elem t a x cs), k.
        split; [now left | now split].
      * exists p, n, k. split; [right; now apply Hflat | now split].
Qed.

Lemma discover_root_children_as_set_witness :
  discover_root
    (Samples.node "r" []
       [Samples.leaf "b" "1"; Samples.leaf "a" "2"; Samples.leaf "b" "1"])
  = discover_root
      (Samples.node "r" [] [Samples.leaf "a" "2"; Samples.leaf "b" "1"]).
Proof.
  apply discover_root_children_as_set. intros c. cbn [In]. tauto.
Defined.

Lemma discover_root_members (root : Element) :
  (forall p, In p (fst (discover_root root)) <-> element_path "" root p)
  /\ (forall q, In q (snd (discover_root root)) <-> attribute_path "" root q).
Proof.
  unfold discover_root. cbn [fst snd].
  destruct (walk_spec root "" (∅, ∅)) as [He Ha]. cbn [fst snd] in He, Ha.
  destruct (sorted_spec (fst (walk root "" (∅, ∅)))) as (_ & _ & Hm1).
  destruct (sorted_spec (snd (walk root "" (∅, ∅)))) as (_ & _ & Hm2).
  split.
  - intros p. rewrite Hm1, He. split; [|now right].
    intros [Hp | Hp]; [now apply not_elem_of_empty in Hp | exact Hp].
  - intros q. rewrite Hm2, Ha. split; [|now right].
    intros [Hq | Hq]; [now apply not_elem_of_empty in Hq | exact Hq].
Qed.

(** Below a non-empty path every tag path extends that path. *)
Lemma nodes_with_path_extend (e : Element) : forall path p n,
  truthy path = true ->
  In (p, n) (nodes_with_path path e) ->
  exists rest, p = path ++ "/" ++ rest.
Proof.
  induction e as [tg a x cs IH] using Element_forall_ind.
  intros path p n Hpath. cbn [nodes_with_path]. rewrite Hpath.
  intros [Heq | Hin].
  - inversion Heq. now exists tg.
  - apply in_flat_map in Hin as (c & Hc & Hin).
    rewrite List.Forall_forall in IH.
    destruct (IH c Hc (path ++ "/" ++ tg) p n) as [rest ->].
    + destruct path; [discriminate | reflexivity].
    + exact Hin.
    + exists (tg ++ "/" ++ rest).
      now rewrite !StripFacts.append_assoc.
Qed.

(** Every path the scanner reports starts at the document element: an
    element path is the root's tag or continues it after a slash, and an
    attribute path continues it after a slash. *)
Theorem discover_root_paths_rooted (root : Element) :
  truthy (tag root) = true ->
  (forall p, In p (fst (discover_root root)) ->
             p = tag root \/ exists rest, p = tag root ++ "/" ++ rest)
  /\ (forall q, In q (snd (discover_root root)) ->
                exists rest, q = tag root ++ "/" ++ rest).
Proof.
  intros Htag. destruct (discover_root_members root) as (He & Ha).
  assert (Hnodes : forall p n,
             In (p, n) (nodes_with_path "" root) ->
             p = tag root \/ exists rest, p = tag root ++ "/" ++ rest).
  { intros p n. destruct root as [tg a x cs]. cbn [nodes_with_path truthy tag].
    intros [Heq | Hin]; [left; now inversion Heq|]. right.
    apply in_flat_map in Hin as (c & _ & Hin).
    now apply (nodes_with_path_extend c tg p n Htag). }
  split.
  - intros p Hp. apply He in Hp as (n & Hn & _). now apply (Hnodes p n).
  - intros q Hq. apply Ha in Hq as (p & n & k & Hn & _ & ->).
    destruct (Hnodes p n Hn) as [-> | [rest ->]].
    + now exists ("@" ++ k).
    + exists (rest ++ "/@" ++ k). now rewrite !StripFacts.append_assoc.
Qed.

Lemma discover_root_paths_rooted_witness :
  exists rest, "a/b/@x" = "a" ++ "/" ++ rest.
Proof.
  destruct (discover_root_paths_rooted Samples.doc_a_b eq_refl) as (_ & Ha).
  apply Ha. vm_compute. left. reflexivity.
Defined.

End DiscoverMore.

(** ** The resolver and summary of [export_xml_to_excel.py] *)

Module V0Facts.
Import Py ET Items ItemsFacts ItemsMore StripFacts Notions V0.

Lemma data_key_truthy n k : data_key n = Some k -> truthy n = true.
Proof. destruct n; [discriminate | reflexivity]. Qed.

Lemma data_key_inj m n k :
  data_key m = Some k -> data_key n = Some k -> m = n.
Proof.
  unfold data_key. intros Hm Hn.
  repeat match type of Hm with
         | (if String.eqb m ?x then _ else _) = _ =>
             destruct (String.eqb_spec m x)
         end; try discriminate;
  repeat match type of Hn with
         | (if String.eqb n ?x then _ else _) = _ =>
             destruct (String.eqb_spec n x)
         end; try discriminate; congruence.
Qed.

Lemma fold_add_tag_v0_lookup (n k : string) (sts : list Element) :
  data_key n = Some k ->
  foldl add_tag_v0 ∅ sts !! k
  = (fun st => strip (findtext "value" "" st))
      <$> last (List.filter
                  (fun st => String.eqb (strip (findtext "name" "" st)) n
                             && truthy (strip (findtext "value" "" st)))
                  sts).
Proof.
  intros Hn. induction sts as [|st l IH] using rev_ind; [reflexivity|].
  rewrite foldl_app, List.filter_app. cbn [foldl List.filter].
  unfold add_tag_v0 at 1.
  destruct (String.eqb_spec (strip (findtext "name" "" st)) n) as [Heq|Hne].
  - rewrite Heq, (data_key_truthy n k Hn), Hn. cbn [negb orb andb].
    destruct (truthy (strip (findtext "value" "" st))) eqn:Hv; cbn [negb].
    + rewrite last_snoc, lookup_insert_eq. reflexivity.
    + rewrite app_nil_r. exact IH.
  - cbn [andb]. rewrite app_nil_r.
    destruct (negb (truthy (strip (findtext "name" "" st)))
              || negb (truthy (strip (findtext "value" "" st))));
      [exact IH|].
    destruct (data_key (strip (findtext "name" "" st))) as [k'|] eqn:Hk';
      [|exact IH].
    rewrite lookup_insert_ne; [exact IH|].
    intros ->. apply Hne. now apply (data_key_inj _ _ k).
Qed.

(** The dictionary of [export_xml_to_excel.py], read at the key of a
    recognised name: the trimmed value of the last direct tag of the object
    with this name and a value that is not blank.  A later blank value does
    not erase an earlier one. *)
Theorem resolve_tags_v0_lookup (obj : Element) (n k : string) :
  data_key n = Some k ->
  resolve_tags_v0 obj !! k
  = (fun st => strip (findtext "value" "" st))
      <$> last (List.filter
                  (fun st => String.eqb (strip (findtext "name" "" st)) n
                             && truthy (strip (findtext "value" "" st)))
                  (findall_child "smarttag" obj)).
Proof. intros Hn. now apply fold_add_tag_v0_lookup. Qed.

Lemma resolve_tags_v0_lookup_witness :
  resolve_tags_v0 Samples.obj_A_blank !! "itemName" = Some "A".
Proof.
  rewrite (resolve_tags_v0_lookup Samples.obj_A_blank "Item Name" "itemName");
    reflexivity.
Defined.

Lemma data_key_recognised n k : data_key n = Some k -> recognised n = true.
Proof.
  unfold data_key, recognised. cbn [existsb]. intros Hn.
  repeat match type of Hn with
         | (if String.eqb n ?x then _ else _) = _ =>
             destruct (String.eqb n x)
         end; try discriminate; cbn; rewrite ?orb_true_r; reflexivity.
Qed.

(** Every entry of the dictionary of [export_xml_to_excel.py] has one of
    the six keys of the script and a value that is trimmed and not empty. *)
Theorem resolve_tags_v0_entries (obj : Element) (k v : string) :
  resolve_tags_v0 obj !! k = Some v ->
  truthy v = true /\ strip v = v /\ exists n, data_key n = Some k.
Proof.
  unfold resolve_tags_v0.
  assert (Hgen : forall (sts : list Element) (data : gmap string string),
             (forall k v, data !! k = Some v ->
                truthy v = true /\ strip v = v
                /\ exists n, data_key n = Some k) ->
             forall k v, foldl add_tag_v0 data sts !! k = Some v ->
                truthy v = true /\ strip v = v
                /\ exists n, data_key n = Some k).
  { induction sts as [|st r IH]; intros data Hdata k' v' Hk; [eauto|].
    cbn [foldl] in Hk. eapply IH; [|exact Hk].
    intros k2 v2. unfold add_tag_v0.
    destruct (truthy (strip (findtext "name" "" st))); cbn [negb orb];
      [|apply Hdata].
    destruct (truthy (strip (findtext "value" "" st))) eqn:Hv; cbn [negb];
      [|apply Hdata].
    destruct (data_key (strip (findtext "name" "" st))) as [key|] eqn:Hkey;
      [|apply Hdata].
    destruct (decide (key = k2)) as [<-|Hne].
    - rewrite lookup_insert_eq. intros [= <-]. split; [exact Hv|].
      split; [apply strip_idempotent|]. eexists. exact Hkey.
    - rewrite lookup_insert_ne by exact Hne. apply Hdata. }
  apply (Hgen _ ∅). intros k' v' Hk. now rewrite lookup_empty in Hk.
Qed.

Lemma resolve_tags_v0_entries_witness :
  truthy "A" = true /\ strip "A" = "A"
  /\ exists n, data_key n = Some "itemName".
Proof.
  apply (resolve_tags_v0_entries Samples.obj_A_blank "itemName" "A").
  reflexivity.
Defined.

Lemma keep_truthy_pair (a b : option string) :
  keep_truthy [a; b] = List.filter truthy [default "" a; default "" b].
Proof.
  destruct a as [[|c r]|], b as [[|d t]|]; reflexivity.
Qed.

Lemma clean_start_cons sp a x :
  truthy a = true -> clean_start sp a -> clean_start sp (a ++ x).
Proof. destruct a; [discriminate|]. intros _ Hc. exact Hc. Qed.

(** Joining trimmed strings with a blank gives a trimmed string. *)
Lemma strip_join_pair (a b : string) :
  strip a = a -> strip b = b ->
  strip (join " " (List.filter truthy [a; b]))
  = join " " (List.filter truthy [a; b]).
Proof.
  intros Ha Hb.
  destruct (strip_clean isspace a) as [Ha1 Ha2].
  destruct (strip_clean isspace b) as [Hb1 Hb2].
  fold (strip a) in Ha1, Ha2. fold (strip b) in Hb1, Hb2.
  rewrite Ha in Ha1, Ha2. rewrite Hb in Hb1, Hb2.
  cbn [List.filter].
  destruct (truthy a) eqn:Hta, (truthy b) eqn:Htb; cbn [join String.concat].
  - apply strip_fixed.
    + now apply clean_start_cons.
    + rewrite !rev_append, append_assoc.
      apply clean_start_cons; [|exact Hb2].
      now rewrite truthy_rev.
  - exact Ha.
  - exact Hb.
  - reflexivity.
Qed.

Lemma tag_or_empty_trimmed (obj : Element) (n : string) :
  strip (tag_or_empty (resolve_tags obj) n) = tag_or_empty (resolve_tags obj) n.
Proof.
  unfold tag_or_empty. destruct (resolve_tags obj !! n) as [v|] eqn:Hv.
  - cbn. now apply (resolve_tags_value_trimmed obj n).
  - reflexivity.
Qed.

(** The first script and version 6 agree on the dictionary, at the
    recognised names, when the tags are direct children of the object and
    no recognised tag has a blank value. *)
Lemma dictionaries_agree (obj : Element) (n k : string) :
  findall_desc "smarttag" obj = findall_child "smarttag" obj ->
  Forall (fun st => recognised (strip (findtext "name" "" st)) = true ->
                    truthy (strip (findtext "value" "" st)) = true)
         (findall_child "smarttag" obj) ->
  data_key n = Some k ->
  resolve_tags_v0 obj !! k = resolve_tags obj !! n.
Proof.
  intros Hflat Hfull Hn. unfold resolve_tags, resolve_tags_v0.
  rewrite (fold_add_tag_v0_lookup n k _ Hn).
  rewrite (fold_add_tag_lookup n _ (data_key_truthy n k Hn)), Hflat.
  do 2 f_equal. clear Hflat. revert Hfull.
  generalize (findall_child "smarttag" obj) as l.
  induction l as [|st l IH]; intros Hfull; [reflexivity|].
  inversion Hfull as [|? ? Hst Hl]; subst. cbn [List.filter].
  destruct (String.eqb_spec (strip (findtext "name" "" st)) n) as [Heq|Hne].
  - rewrite Hst by (rewrite Heq; now apply (data_key_recognised n k)).
    cbn [andb]. now rewrite (IH Hl).
  - cbn [andb]. exact (IH Hl).
Qed.

(** The summary of [export_xml_to_excel.py] and the summary of version 6
    are the same text for an object whose tags are its direct children and
    none of whose recognised tags has a blank value. *)
Theorem summaries_agree (obj : Element) :
  findall_desc "smarttag" obj = findall_child "smarttag" obj ->
  Forall (fun st => recognised (strip (findtext "name" "" st)) = true ->
                    truthy (strip (findtext "value" "" st)) = true)
         (findall_child "smarttag" obj) ->
  get_item_details_v0 (Some obj) = get_item_details (Some obj).
Proof.
  intros Hflat Hfull. cbn [get_item_details_v0 get_item_details]. f_equal.
  unfold summary_lines_v0, summary_lines, tag_truthy.
  rewrite (dictionaries_agree obj "Item Name" "itemName" Hflat Hfull eq_refl).
  rewrite (dictionaries_agree obj "Civil3D General:Network name" "network"
             Hflat Hfull eq_refl).
  rewrite (dictionaries_agree obj "Civil3D General:Part Size Name" "partSize"
             Hflat Hfull eq_refl).
  rewrite (dictionaries_agree obj "Item Type" "itemType" Hflat Hfull eq_refl).
  rewrite (dictionaries_agree obj "Civil3D General:Inner Diameter or Width"
             "inner" Hflat Hfull eq_refl).
  rewrite (dictionaries_agree obj "Civil3D General:Outer Diameter or Width"
             "outer" Hflat Hfull eq_refl).
  rewrite keep_truthy_pair.
  fold (tag_or_empty (resolve_tags obj) "Item Name").
  fold (tag_or_empty (resolve_tags obj) "Civil3D General:Network name").
  fold (tag_or_empty (resolve_tags obj) "Civil3D General:Part Size Name").
  fold (tag_or_empty (resolve_tags obj) "Item Type").
  fold (tag_or_empty (resolve_tags obj)
          "Civil3D General:Inner Diameter or Width").
  fold (tag_or_empty (resolve_tags obj)
          "Civil3D General:Outer Diameter or Width").
  rewrite (strip_join_pair _ _
             (tag_or_empty_trimmed obj "Civil3D General:Part Size Name")
             (tag_or_empty_trimmed obj "Item Type")).
  do 3 f_equal.
  assert (Hor : forall o : option string,
             otruthy o = truthy (default "" o)) by (now intros [s|]).
  rewrite !Hor. unfold tag_or_empty.
  destruct (truthy (default ""
              (resolve_tags obj !! "Civil3D General:Inner Diameter or Width"))
            || truthy (default ""
              (resolve_tags obj !! "Civil3D General:Outer Diameter or Width")));
    [|reflexivity].
  assert (Hpipe : forall x, truthy (strip ("Pipe " ++ x)) = true)
    by (intros x; exact (strip_truthy isspace "P"%char ("ipe " ++ x) isspace_P)).
  now rewrite Hpipe.
Qed.

Lemma summaries_agree_witness :
  get_item_details_v0
    (Some (Samples.node "clashobject" []
             [Samples.smarttag "Item Name" "Pipe 7";
              Samples.smarttag "Item Type" " Solid ";
              Samples.smarttag "Layer" ""]))
  = "Item Name: Pipe 7" ++ nl ++ "Item Type: Solid".
Proof.
  rewrite summaries_agree; [reflexivity|reflexivity|].
  repeat constructor; discriminate.
Defined.

End V0Facts.
